(** * The tariff-classification pipeline of [main.py]

    A shallow embedding of [classify_post], [write_csv] and the body of
    [main] (the per-post worker, the pool's result collection and the three
    output tiers), together with the properties of the specification that
    concern them.

    Python values are modelled by the inductive type [value]; a Python
    [str] is a Rocq [string] whose characters are the code points below 256,
    and a [dict] is an insertion-ordered association list.  Code that may
    raise returns a [res]; code that talks to the outside world (the image
    download and the classification service) runs in the monad [M], which
    threads the trace of external calls and asks a [world] for the replies. *)

From Stdlib Require Import ZArith String Ascii List Lia DecimalString.
From Stdlib Require Import Floats.SpecFloat.
From stdpp Require Import base list strings.

Set Warnings "-register-all".
Open Scope string_scope.

(** ** Python strings *)

Module Str.

(** The characters that cannot be written inside a string literal. *)
Definition dq : string := String (ascii_of_nat 34) EmptyString.
Definition nl : string := String (ascii_of_nat 10) EmptyString.
Definition bs : string := String (ascii_of_nat 92) EmptyString.

Definition quoted (s : string) : string := dq ++ s ++ dq.

(** [s[:k]] for [0 <= k]. *)
Definition slice_to (k : nat) (s : string) : string := substring 0 k s.

(** [sub in s]. *)
Fixpoint contains (sub s : string) : bool :=
  String.prefix sub s ||
  match s with
  | EmptyString => false
  | String _ s' => contains sub s'
  end.

Definition lower_char (c : ascii) : ascii :=
  let n := nat_of_ascii c in
  if ((65 <=? n) && (n <=? 90))%nat then ascii_of_nat (n + 32)
  else if ((192 <=? n) && (n <=? 222) && negb (n =? 215))%nat then ascii_of_nat (n + 32)
  else c.

(** [s.lower()]. *)
Fixpoint lower (s : string) : string :=
  match s with
  | EmptyString => EmptyString
  | String c s' => String (lower_char c) (lower s')
  end.

(** [sep.join(parts)]. *)
Definition join (sep : string) (parts : list string) : string :=
  String.concat sep parts.

Fixpoint chars (s : string) : list string :=
  match s with
  | EmptyString => []
  | String c s' => String c EmptyString :: chars s'
  end.

Fixpoint flat_map_chars (f : ascii -> string) (s : string) : string :=
  match s with
  | EmptyString => EmptyString
  | String c s' => f c ++ flat_map_chars f s'
  end.

Definition hex_digit (n : nat) : string :=
  match String.get n "0123456789abcdef" with
  | Some c => String c EmptyString
  | None => "?"
  end.

Definition hex2 (n : nat) : string := hex_digit (n / 16) ++ hex_digit (n mod 16).

Definition of_Z (n : Z) : string := NilZero.string_of_int (Z.to_int n).

End Str.

(** ** Python values and exceptions *)

Inductive value : Type :=
| VNone
| VBool (b : bool)
| VInt (n : Z)
| VStr (s : string)
| VList (items : list value)
| VDict (entries : list (string * value)).

Definition dict := list (string * value).

Record exn := Exn { exn_type : string; exn_str : string }.

Inductive res (A : Type) : Type :=
| Ok (a : A)
| Raise (e : exn).
Arguments Ok {A} a.
Arguments Raise {A} e.

Definition res_bind {A B} (r : res A) (k : A -> res B) : res B :=
  match r with
  | Ok a => k a
  | Raise e => Raise e
  end.

Module Py.

(** *** Dictionaries *)

Fixpoint lookup (k : string) (d : dict) : option value :=
  match d with
  | [] => None
  | (k', v) :: d' => if String.eqb k' k then Some v else lookup k d'
  end.

(** [d.get(k, dflt)] and [d.get(k)]. *)
Definition get_or (d : dict) (k : string) (dflt : value) : value :=
  match lookup k d with
  | Some v => v
  | None => dflt
  end.

Definition get (d : dict) (k : string) : value := get_or d k VNone.

(** [d[k]]. *)
Definition getitem (d : dict) (k : string) : res value :=
  match lookup k d with
  | Some v => Ok v
  | None => Raise (Exn "KeyError" ("'" ++ k ++ "'"))
  end.

(** [d[k] = v]: an existing key keeps its position. *)
Fixpoint setitem (d : dict) (k : string) (v : value) : dict :=
  match d with
  | [] => [(k, v)]
  | (k', v') :: d' =>
      if String.eqb k' k then (k', v) :: d' else (k', v') :: setitem d' k v
  end.

Definition keys (d : dict) : list string := map fst d.

(** *** Dynamic operations *)

Definition type_name (v : value) : string :=
  match v with
  | VNone => "NoneType"
  | VBool _ => "bool"
  | VInt _ => "int"
  | VStr _ => "str"
  | VList _ => "list"
  | VDict _ => "dict"
  end.

Definition no_attribute (v : value) (attr : string) : exn :=
  Exn "AttributeError"
      ("'" ++ type_name v ++ "' object has no attribute '" ++ attr ++ "'").

(** [v.get(k, dflt)] on a value whose type is only known at run time. *)
Definition vget_or (v : value) (k : string) (dflt : value) : res value :=
  match v with
  | VDict d => Ok (get_or d k dflt)
  | _ => Raise (no_attribute v "get")
  end.

Definition vget (v : value) (k : string) : res value := vget_or v k VNone.

(** The receiver of [v[k]] when [v] is a dictionary. *)
Definition as_dict (v : value) : res dict :=
  match v with
  | VDict d => Ok d
  | _ => Raise (Exn "TypeError" ("'" ++ type_name v ++ "' object is not subscriptable"))
  end.

(** [for x in v]: the items the loop visits. *)
Definition iter (v : value) : res (list value) :=
  match v with
  | VList items => Ok items
  | VStr s => Ok (map VStr (Str.chars s))
  | VDict d => Ok (map VStr (keys d))
  | _ => Raise (Exn "TypeError" ("'" ++ type_name v ++ "' object is not iterable"))
  end.

(** [bool(v)]. *)
Definition truthy (v : value) : bool :=
  match v with
  | VNone => false
  | VBool b => b
  | VInt n => negb (n =? 0)%Z
  | VStr s => negb (String.eqb s EmptyString)
  | VList items => match items with [] => false | _ => true end
  | VDict d => match d with [] => false | _ => true end
  end.

(** [v is True]. *)
Definition is_True (v : value) : bool :=
  match v with
  | VBool true => true
  | _ => false
  end.

(** [v == s] for a string [s]. *)
Definition eq_str (v : value) (s : string) : bool :=
  match v with
  | VStr t => String.eqb t s
  | _ => false
  end.

(** [v in [None, e]] for the empty string [e]. *)
Definition in_None_or_empty (v : value) : bool :=
  match v with
  | VNone => true
  | VStr s => String.eqb s EmptyString
  | _ => false
  end.

End Py.

(** ** The library functions the program calls *)

(** [json.dumps] with its defaults ([ensure_ascii], separators [", "] and
    [": "]). *)
Module Json.

Definition escape_char (c : ascii) : string :=
  let n := nat_of_ascii c in
  if (n =? 34)%nat then Str.bs ++ Str.dq
  else if (n =? 92)%nat then Str.bs ++ Str.bs
  else if (n =? 10)%nat then Str.bs ++ "n"
  else if (n =? 13)%nat then Str.bs ++ "r"
  else if (n =? 9)%nat then Str.bs ++ "t"
  else if (n =? 8)%nat then Str.bs ++ "b"
  else if (n =? 12)%nat then Str.bs ++ "f"
  else if ((n <? 32) || (126 <? n))%nat then Str.bs ++ "u00" ++ Str.hex2 n
  else String c EmptyString.

Definition encode_str (s : string) : string :=
  Str.dq ++ Str.flat_map_chars escape_char s ++ Str.dq.

Fixpoint dumps (v : value) : string :=
  match v with
  | VNone => "null"
  | VBool true => "true"
  | VBool false => "false"
  | VInt n => Str.of_Z n
  | VStr s => encode_str s
  | VList items => "[" ++ Str.join ", " (map dumps items) ++ "]"
  | VDict d =>
      "{" ++ Str.join ", " (map (fun kv => encode_str (fst kv) ++ ": " ++ dumps (snd kv)) d)
          ++ "}"
  end.

End Json.

(** [repr] and [str], which the f-strings apply to the values they embed. *)
Module Repr.

Definition printable (n : nat) : bool :=
  ((32 <=? n) && (n <? 127) || (161 <=? n) && negb (n =? 173))%nat.

Definition escape_char (quote : nat) (c : ascii) : string :=
  let n := nat_of_ascii c in
  if ((n =? quote) || (n =? 92))%nat then Str.bs ++ String c EmptyString
  else if (n =? 9)%nat then Str.bs ++ "t"
  else if (n =? 10)%nat then Str.bs ++ "n"
  else if (n =? 13)%nat then Str.bs ++ "r"
  else if printable n then String c EmptyString
  else Str.bs ++ "x" ++ Str.hex2 n.

Definition repr_str (s : string) : string :=
  if Str.contains "'" s && negb (Str.contains Str.dq s)
  then Str.dq ++ Str.flat_map_chars (escape_char 34) s ++ Str.dq
  else "'" ++ Str.flat_map_chars (escape_char 39) s ++ "'".

Fixpoint repr (v : value) : string :=
  match v with
  | VNone => "None"
  | VBool true => "True"
  | VBool false => "False"
  | VInt n => Str.of_Z n
  | VStr s => repr_str s
  | VList items => "[" ++ Str.join ", " (map repr items) ++ "]"
  | VDict d =>
      "{" ++ Str.join ", " (map (fun kv => repr_str (fst kv) ++ ": " ++ repr (snd kv)) d)
          ++ "}"
  end.

Definition str (v : value) : string :=
  match v with
  | VStr s => s
  | _ => repr v
  end.

End Repr.

(** [base64.b64encode(data).decode("utf-8")]. *)
Module Base64.

Definition alphabet : string :=
  "ABCDEFGHIJKLMNOPQRSTUVWXYZabcdefghijklmnopqrstuvwxyz0123456789+/".

Definition digit (n : Z) : string :=
  match String.get (Z.to_nat (Z.land n 63)) alphabet with
  | Some c => String c EmptyString
  | None => "?"
  end.

Definition code (b : Byte.byte) : Z := Z.of_N (Byte.to_N b).

Fixpoint b64encode (data : list Byte.byte) : string :=
  match data with
  | [] => EmptyString
  | [a] =>
      let n := Z.shiftl (code a) 16 in
      digit (Z.shiftr n 18) ++ digit (Z.shiftr n 12) ++ "=="
  | [a; b] =>
      let n := Z.lor (Z.shiftl (code a) 16) (Z.shiftl (code b) 8) in
      digit (Z.shiftr n 18) ++ digit (Z.shiftr n 12) ++ digit (Z.shiftr n 6) ++ "="
  | a :: b :: c :: rest =>
      let n := Z.lor (Z.lor (Z.shiftl (code a) 16) (Z.shiftl (code b) 8)) (code c) in
      digit (Z.shiftr n 18) ++ digit (Z.shiftr n 12) ++ digit (Z.shiftr n 6) ++ digit n
        ++ b64encode rest
  end.

End Base64.

(** The double-precision arithmetic of [int(len(prompt_text) * 0.9)]. *)
Module Float.

Definition prec : Z := 53.
Definition emax : Z := 1024.

(** [float(n)] for a Python [int]: the nearest double, or [OverflowError]. *)
Definition of_int (n : Z) : res spec_float :=
  match binary_normalize prec emax n 0 false with
  | S754_infinity _ | S754_nan =>
      Raise (Exn "OverflowError" "int too large to convert to float")
  | x => Ok x
  end.

(** The literal [0.9]: the double nearest to nine tenths. *)
Definition point_nine : spec_float := S754_finite false 8106479329266893 (-53).

Definition mul (x y : spec_float) : spec_float := SFmul prec emax x y.

(** [int(x)]: truncation towards zero. *)
Definition to_int (x : spec_float) : res Z :=
  match x with
  | S754_zero _ => Ok 0%Z
  | S754_finite s m e =>
      let a := match e with
               | Z.neg k => (Z.pos m / 2 ^ Z.pos k)%Z
               | _ => (Z.pos m * 2 ^ e)%Z
               end in
      Ok (if s then (- a)%Z else a)
  | S754_infinity _ =>
      Raise (Exn "OverflowError" "cannot convert float infinity to integer")
  | S754_nan => Raise (Exn "ValueError" "cannot convert float NaN to integer")
  end.

(** [int(n * 0.9)]. *)
Definition int_mul_point_nine (n : Z) : res Z :=
  res_bind (of_int n) (fun x => to_int (mul x point_nine)).

End Float.

(** ** The outside world *)

(** The arguments of one [client.responses.create] call. *)
Record create_request := CreateRequest {
  req_model : string;
  req_input : value;
  req_text : value
}.

Inductive call : Type :=
| CallGet (url : value)
| CallCreate (request : create_request).

(** What [requests.get] returns: the fields of the response the program reads. *)
Record response := Response { status_code : Z; content : list Byte.byte }.

Inductive get_reply : Type :=
| GetReturns (resp : response)
| GetRaises (e : exn).

Inductive create_reply : Type :=
| Created (output_text : string)
| CreateRaises (e : exn).

(** What the program cannot decide: the reply to each external call, which
    may depend on every call made before it, and the parser [json.loads]. *)
Record world := World {
  requests_get : list call -> value -> get_reply;
  responses_create : list call -> create_request -> create_reply;
  json_loads : string -> res value
}.

(** Computations that raise and that call the world: the state is the trace
    of external calls made so far, oldest first. *)
Definition M (A : Type) : Type := list call -> res A * list call.

Definition ret {A} (a : A) : M A := fun t => (Ok a, t).

Definition bind {A B} (m : M A) (k : A -> M B) : M B :=
  fun t =>
    match m t with
    | (Ok a, t') => k a t'
    | (Raise e, t') => (Raise e, t')
    end.

Definition lift {A} (r : res A) : M A := fun t => (r, t).

(** [try: m  except Exception as e: handler e]. *)
Definition try_except {A} (m : M A) (handler : exn -> M A) : M A :=
  fun t =>
    match m t with
    | (Ok a, t') => (Ok a, t')
    | (Raise e, t') => handler e t'
    end.

Declare Scope py_scope.
Delimit Scope py_scope with py.
Notation "x <- m ;; k" := (bind m (fun x => k))
  (at level 100, m at next level, right associativity) : py_scope.
Open Scope py_scope.

(** ** [classify_post] *)

Section Classify.

Variable w : world.

(** [requests.get(url)]. *)
Definition get (url : value) : M response :=
  fun t =>
    match requests_get w t url with
    | GetReturns resp => (Ok resp, (t ++ [CallGet url])%list)
    | GetRaises e => (Raise e, (t ++ [CallGet url])%list)
    end.

(** [client.responses.create(...).output_text]. *)
Definition create (request : create_request) : M string :=
  fun t =>
    match responses_create w t request with
    | Created output_text => (Ok output_text, (t ++ [CallCreate request])%list)
    | CreateRaises e => (Raise e, (t ++ [CallCreate request])%list)
    end.

(** The body of the loop over [media_list]: the text one item adds to
    [enhanced_media_text]. *)
Definition media_fragment (m : value) : M string :=
  ty <- lift (Py.vget m "type") ;;
  if Py.eq_str ty "image" then
    try_except
      (url <- lift (res_bind (Py.as_dict m) (fun d => Py.getitem d "url")) ;;
       resp <- get url ;;
       if (status_code resp =? 200)%Z then
         let b64data := Base64.b64encode (content resp) in
         let mime := "image/jpeg" in
         let data_url := "data:" ++ mime ++ ";base64," ++ b64data in
         detail <- lift (Py.vget_or m "detail" (VStr "low")) ;;
         ret (Str.nl ++ "Image (" ++ Repr.str detail ++ "): " ++ data_url)
       else
         url' <- lift (Py.vget m "url") ;;
         ret (Str.nl ++ "Image URL: " ++ Repr.str url'))
      (fun _ =>
         url' <- lift (Py.vget m "url") ;;
         ret (Str.nl ++ "Image URL: " ++ Repr.str url' ++ " (failed to fetch image)"))
  else
    ret (Str.nl ++ "Non-image media: " ++ Json.dumps m).

Fixpoint media_loop (media_list : list value) (enhanced_media_text : string) : M string :=
  match media_list with
  | [] => ret enhanced_media_text
  | m :: rest =>
      fragment <- media_fragment m ;;
      media_loop rest (enhanced_media_text ++ fragment)
  end.

End Classify.

(** *** The request *)

Definition key_line (key description : string) : string :=
  "- " ++ Str.quoted key ++ ": " ++ description ++ Str.nl.

(** The f-string [prompt_text]. *)
Definition prompt_text (post : dict) (enhanced_media_text : string) : string :=
  Str.nl
  ++ "Analyze the following post and provide a JSON object with the following keys:" ++ Str.nl
  ++ key_line "tariffs_related" "true or false"
  ++ key_line "affected_country" "string or null"
  ++ key_line "affected_region" "string or null"
  ++ key_line "products" "a list of strings (empty list if none)"
  ++ key_line "published_time" "string (should match the post's created_at)"
  ++ key_line "tariff_rate"
       ("string (e.g. " ++ Str.quoted "50%" ++ ", or null if not mentioned)")
  ++ key_line "classification"
       ("string (" ++ Str.quoted "threat" ++ " or " ++ Str.quoted "official" ++ " or "
          ++ Str.quoted "unknown" ++ ")")
  ++ key_line "media_analysis"
       "string (a brief analysis of the media if present, or null)"
  ++ Str.nl
  ++ "Post details:" ++ Str.nl
  ++ "Published time: " ++ Repr.str (Py.get post "created_at") ++ Str.nl
  ++ "Content: " ++ Repr.str (Py.get post "content") ++ Str.nl
  ++ "Media URLs: " ++ Json.dumps (Py.get post "media") ++ Str.nl
  ++ enhanced_media_text ++ Str.nl.

Definition system_instruction : string :=
  "You are a tariff analysis assistant tasked with reviewing Donald Trump's posts on TruthSocial. "
  ++ "Your objective is to identify and analyze Trump's positions, announcements, or intended actions regarding tariffs. "
  ++ "Analyze both textual statements and visual content included in his posts. If Trump references news articles, "
  ++ "only consider them if he explicitly supports or announces something based on the article's content. "
  ++ "Ignore announcements or claims made solely by other individuals unless officially endorsed or mentioned explicitly by Trump himself."
  ++ Str.nl ++ Str.nl ++ "Respond strictly with JSON matching the provided schema.".

Definition of_type (name : string) : value := VDict [("type", VStr name)].

Definition string_or_null : value :=
  VDict [("anyOf", VList [of_type "string"; of_type "null"])].

Definition required_fields : list string :=
  ["tariffs_related"; "affected_country"; "affected_region"; "products";
   "published_time"; "tariff_rate"; "classification"; "media_analysis"].

Definition response_format : value :=
  VDict
    [("format",
      VDict
        [("type", VStr "json_schema");
         ("name", VStr "tariff_analysis");
         ("schema",
          VDict
            [("type", VStr "object");
             ("properties",
              VDict
                [("tariffs_related", of_type "boolean");
                 ("affected_country", string_or_null);
                 ("affected_region", string_or_null);
                 ("products",
                  VDict [("type", VStr "array"); ("items", of_type "string")]);
                 ("published_time", of_type "string");
                 ("tariff_rate", string_or_null);
                 ("classification", of_type "string");
                 ("media_analysis", string_or_null)]);
             ("required", VList (map VStr required_fields));
             ("additionalProperties", VBool false)]);
         ("strict", VBool true)])].

Definition message (role content : string) : value :=
  VDict [("role", VStr role); ("content", VStr content)].

Definition request_for (text : string) : create_request :=
  {| req_model := "gpt-4o-mini";
     req_input := VList [message "system" system_instruction; message "user" text];
     req_text := response_format |}.

Definition error_result (e : exn) : value := VDict [("error", VStr (exn_str e))].

(** [[too long] in str(e).lower()]. *)
Definition too_long (e : exn) : bool :=
  Str.contains "too long" (Str.lower (exn_str e)).

(** [prompt_text[:int(len(prompt_text) * 0.9)]]. *)
Definition shorten (text : string) : res string :=
  res_bind (Float.int_mul_point_nine (Z.of_nat (String.length text)))
           (fun k => Ok (Str.slice_to (Z.to_nat k) text)).

Section ClassifyPost.

Variable w : world.

Definition do_request (text : string) : M string := create w (request_for text).

(** The two statements inside each [try]. *)
Definition request_and_parse (text : string) : M value :=
  output_text <- do_request text ;;
  lift (json_loads w output_text).

(** The [try] statement that ends [classify_post]. *)
Definition classify_prompt (text : string) : M value :=
  try_except (request_and_parse text)
    (fun e =>
       if too_long e then
         shortened <- lift (shorten text) ;;
         try_except (request_and_parse shortened)
           (fun e2 => ret (error_result e2))
       else ret (error_result e)).

Definition build_prompt (post : dict) : M string :=
  let media_list := Py.get_or post "media" (VList []) in
  items <- lift (Py.iter media_list) ;;
  enhanced_media_text <- media_loop w items EmptyString ;;
  ret (prompt_text post enhanced_media_text).

Definition classify_post (post : dict) : M value :=
  text <- build_prompt post ;;
  classify_prompt text.

End ClassifyPost.

(** ** [write_csv] *)

Module Csv.

Definition fieldnames : list string :=
  ["created_at"; "content"; "media";
   "tariffs_related"; "affected_country"; "affected_region";
   "products"; "published_time"; "tariff_rate"; "classification"; "media_analysis"].

(** [sep.join(v)]: every item of [v] has to be a string. *)
Fixpoint strings_of (position : nat) (items : list value) : res (list string) :=
  match items with
  | [] => Ok []
  | VStr s :: rest => res_bind (strings_of (S position) rest) (fun ss => Ok (s :: ss))
  | v :: _ =>
      Raise (Exn "TypeError"
               ("sequence item " ++ Str.of_Z (Z.of_nat position)
                  ++ ": expected str instance, " ++ Py.type_name v ++ " found"))
  end.

Definition join (sep : string) (v : value) : res string :=
  res_bind (Py.iter v) (fun items =>
  res_bind (strings_of 0 items) (fun parts => Ok (Str.join sep parts))).

(** The conditional expression of the [products] column. *)
Definition products_field (cls : value) : res value :=
  res_bind (Py.vget cls "products") (fun present =>
  if Py.truthy present then
    res_bind (Py.vget_or cls "products" (VList [])) (fun products =>
    res_bind (join ", " products) (fun joined => Ok (VStr joined)))
  else Ok (VStr EmptyString)).

(** The dictionary handed to [writer.writerow]. *)
Definition row_dict (post : dict) : res dict :=
  let cls := Py.get_or post "classification" (VDict []) in
  let created_at := Py.get_or post "created_at" (VStr EmptyString) in
  let content := Py.get_or post "content" (VStr EmptyString) in
  let media := VStr (Json.dumps (Py.get_or post "media" (VList []))) in
  res_bind (Py.vget_or cls "tariffs_related" (VStr EmptyString)) (fun tariffs_related =>
  res_bind (Py.vget_or cls "affected_country" (VStr EmptyString)) (fun affected_country =>
  res_bind (Py.vget_or cls "affected_region" (VStr EmptyString)) (fun affected_region =>
  res_bind (products_field cls) (fun products =>
  res_bind (Py.vget_or cls "published_time" (VStr EmptyString)) (fun published_time =>
  res_bind (Py.vget_or cls "tariff_rate" (VStr EmptyString)) (fun tariff_rate =>
  res_bind (Py.vget_or cls "classification" (VStr EmptyString)) (fun classification =>
  res_bind (Py.vget_or cls "media_analysis" (VStr EmptyString)) (fun media_analysis =>
  Ok [("created_at", created_at);
      ("content", content);
      ("media", media);
      ("tariffs_related", tariffs_related);
      ("affected_country", affected_country);
      ("affected_region", affected_region);
      ("products", products);
      ("published_time", published_time);
      ("tariff_rate", tariff_rate);
      ("classification", classification);
      ("media_analysis", media_analysis)])))))))).

(** The text [csv.writer] writes for one cell, before quoting. *)
Definition field (v : value) : string :=
  match v with
  | VNone => EmptyString
  | _ => Repr.str v
  end.

(** [DictWriter.writerow]: the cells in the order of [fieldnames], a
    missing key giving the empty [restval]; a key outside [fieldnames] is
    refused. *)
Definition writerow (rowdict : dict) : res (list string) :=
  match List.filter (fun k => negb (existsb (String.eqb k) fieldnames)) (Py.keys rowdict) with
  | [] => Ok (map (fun key => field (Py.get_or rowdict key (VStr EmptyString))) fieldnames)
  | extra =>
      Raise (Exn "ValueError"
               ("dict contains fields not in fieldnames: "
                  ++ Str.join ", " (map Repr.repr_str extra)))
  end.

Definition row (post : dict) : res (list string) :=
  res_bind (row_dict post) writerow.

Fixpoint rows (posts : list dict) : res (list (list string)) :=
  match posts with
  | [] => Ok []
  | post :: rest =>
      res_bind (row post) (fun r =>
      res_bind (rows rest) (fun rs => Ok (r :: rs)))
  end.

(** The rows of the file, header first. *)
Definition write_csv (posts : list dict) : res (list (list string)) :=
  res_bind (rows posts) (fun rs => Ok (fieldnames :: rs)).

End Csv.

(** ** [main] *)

(** The list comprehension that rebuilds [media_attachments]. *)
Fixpoint rebuild_media (attachments : list value) : res (list value) :=
  match attachments with
  | [] => Ok []
  | m :: rest =>
      res_bind (Py.vget m "type") (fun ty =>
      res_bind (Py.vget m "url") (fun url =>
      res_bind (rebuild_media rest) (fun rebuilt =>
      Ok (VDict [("type", ty); ("url", url)] :: rebuilt))))
  end.

(** The dictionary [structured] before it is classified. *)
Definition structure (post : dict) : res dict :=
  res_bind (Py.iter (Py.get_or post "media_attachments" (VList []))) (fun attachments =>
  res_bind (rebuild_media attachments) (fun media =>
  Ok [("created_at", Py.get post "created_at");
      ("content", Py.get post "content");
      ("media", VList media)])).

(** [process_post]; the [time.sleep(1)] before its [return] changes no value
    and is left out. *)
Definition process_post (w : world) (post : dict) : M dict :=
  structured <- lift (structure post) ;;
  classification <- classify_post w structured ;;
  ret (Py.setitem structured "classification" classification).

(** *** The pool

    [executor.map] submits one task per post and hands back the results of
    the futures in the order of submission, whatever the order in which the
    workers finish.  Each task sees the outside world from its own worker:
    task [i] runs in the world [worlds i], starting from an empty trace. *)

(** A future: [None] while its task runs, then what the task returned or
    raised. *)
Definition future := option (res dict).

Definition submit_all (posts : list dict) : list future := map (fun _ => None) posts.

Definition run_task (worlds : nat -> world) (posts : list dict) (i : nat) : option (res dict) :=
  match posts !! i with
  | Some post => Some (fst (process_post (worlds i) post []))
  | None => None
  end.

(** Task [i] finishes and fills its future. *)
Definition complete (worlds : nat -> world) (posts : list dict)
    (futures : list future) (i : nat) : list future :=
  match run_task worlds posts i with
  | Some r => <[i := Some r]> futures
  | None => futures
  end.

(** The futures after the tasks have finished in the order [completion]. *)
Definition run_pool (worlds : nat -> world) (posts : list dict)
    (completion : list nat) : list future :=
  foldl (complete worlds posts) (submit_all posts) completion.

(** [list(executor.map(...))]: [result()] of every future in turn.  [None]
    means that the caller waits for a task that never finishes; the first
    exception of a task is raised again. *)
Fixpoint results (futures : list future) : option (res (list dict)) :=
  match futures with
  | [] => Some (Ok [])
  | None :: _ => None
  | Some (Raise e) :: _ => Some (Raise e)
  | Some (Ok structured) :: rest =>
      match results rest with
      | Some (Ok others) => Some (Ok (structured :: others))
      | other => other
      end
  end.

Definition structured_posts (worlds : nat -> world) (posts : list dict)
    (completion : list nat) : option (res (list dict)) :=
  results (run_pool worlds posts completion).

(** *** The tiers *)

(** [[post for post in posts if keep(post)]]. *)
Fixpoint select (keep : dict -> res bool) (posts : list dict) : res (list dict) :=
  match posts with
  | [] => Ok []
  | post :: rest =>
      res_bind (keep post) (fun kept =>
      res_bind (select keep rest) (fun others =>
      Ok (if kept then post :: others else others)))
  end.

Definition classification_of (post : dict) : value :=
  Py.get_or post "classification" (VDict []).

Definition is_tariff_post (post : dict) : res bool :=
  res_bind (Py.vget (classification_of post) "tariffs_related") (fun v =>
  Ok (Py.is_True v)).

Definition has_tariff_rate (post : dict) : res bool :=
  res_bind (Py.vget (classification_of post) "tariff_rate") (fun v =>
  Ok (negb (Py.in_None_or_empty v))).

Definition tariff_posts (structured_posts : list dict) : res (list dict) :=
  select is_tariff_post structured_posts.

Definition official_tariff_posts (structured_posts : list dict) : res (list dict) :=
  select has_tariff_rate structured_posts.

(** *** The files *)

Inductive file : Type :=
| JsonFile (document : value)
| CsvFile (table : list (list string)).

(** The two files of one tier; [json.dump] is given the list itself. *)
Definition save (name : string) (posts : list dict) : res (list (string * file)) :=
  res_bind (Csv.write_csv posts) (fun table =>
  Ok [(name ++ ".json", JsonFile (VList (map VDict posts)));
      (name ++ ".csv", CsvFile table)]).

(** What [main] writes once the pool has returned, in the order of writing. *)
Definition outputs (structured_posts : list dict) : res (list (string * file)) :=
  res_bind (save "posts" structured_posts) (fun level1 =>
  res_bind (tariff_posts structured_posts) (fun relevant =>
  res_bind (save "tariff_posts" relevant) (fun level2 =>
  res_bind (official_tariff_posts structured_posts) (fun with_rate =>
  res_bind (save "official_tariff_posts" with_rate) (fun level3 =>
  Ok (level1 ++ level2 ++ level3)%list))))).

(** * The vocabulary of the specification *)

(** A text whose length the double-precision product handles exactly: fewer
    than [2 ^ 49] characters. *)
Definition fits (text : string) : Prop :=
  (Z.of_nat (String.length text) < 2 ^ 49)%Z.

(** A text that CPython can hold: fewer than [2 ^ 63] characters. *)
Definition representable (text : string) : Prop :=
  (Z.of_nat (String.length text) < 2 ^ 63)%Z.

(** The first nine tenths of a text, rounded down to whole characters. *)
Definition ninety_percent (text : string) : string :=
  Str.slice_to (9 * String.length text / 10) text.

(** What one attempt gives after the trace [t]: the parsed response, or the
    exception of the call or of the parser. *)
Definition attempt (w : world) (text : string) (t : list call) : res value :=
  fst (request_and_parse w text t).

(** A value that is a dictionary. *)
Definition is_dict (v : value) : Prop :=
  match v with
  | VDict _ => True
  | _ => False
  end.

(** A post record as [classify_post] expects it: [media] is absent or is a
    list of media references, each a dictionary. *)
Definition post_record (post : dict) : Prop :=
  exists media, Py.get_or post "media" (VList []) = VList media /\ Forall is_dict media.

(** A raw post as the retrieval client gives it: [media_attachments] is
    absent or is a list of dictionaries. *)
Definition raw_post (post : dict) : Prop :=
  exists attachments,
    Py.get_or post "media_attachments" (VList []) = VList attachments /\
    Forall is_dict attachments.

(** The prompt that [classify_post] builds for the post after the trace [t]
    is [representable]. *)
Definition prompt_representable (w : world) (post : dict) (t : list call) : Prop :=
  forall text t', build_prompt w post t = (Ok text, t') -> representable text.

(** The world in which every successful response that [json.loads] rejects
    is replaced by a failure of the call itself, with the parser's message. *)
Definition as_call_failures (w : world) : world :=
  {| requests_get := requests_get w;
     responses_create := fun t request =>
       match responses_create w t request with
       | Created output_text =>
           match json_loads w output_text with
           | Ok _ => Created output_text
           | Raise e => CreateRaises e
           end
       | CreateRaises e => CreateRaises e
       end;
     json_loads := json_loads w |}.

(** What [classify_post] may return: a value that [json.loads] made of some
    response, or an error marker. *)
Definition classification_result (w : world) (v : value) : Prop :=
  (exists output_text, json_loads w output_text = Ok v) \/
  (exists e, v = error_result e).

(** The fragment of an image that was downloaded. *)
Definition inlined (detail payload : string) : string :=
  Str.nl ++ "Image (" ++ detail ++ "): data:image/jpeg;base64," ++ payload.

(** A media reference reduced to its type and its address. *)
Definition type_and_url (m : value) : value :=
  match m with
  | VDict d => VDict [("type", Py.get d "type"); ("url", Py.get d "url")]
  | _ => m
  end.

(** The enrichment of a raw post by the worker that sees the world [w]. *)
Definition enrichment (w : world) (post : dict) : res dict :=
  fst (process_post w post []).

(** The value a worker hands back; the empty dictionary stands for a worker
    that raised. *)
Definition returned (r : res dict) : dict :=
  match r with
  | Ok structured => structured
  | Raise _ => []
  end.

(** An enriched post: its classification is a dictionary, be it the parsed
    object or the error marker. *)
Definition enriched_post (post : dict) : Prop := is_dict (classification_of post).

(** Tier Relevant: [tariffs_related] is the boolean [true]. *)
Definition relevant (post : dict) : bool :=
  match classification_of post with
  | VDict cls =>
      match Py.lookup "tariffs_related" cls with
      | Some (VBool true) => true
      | _ => false
      end
  | _ => false
  end.

(** Tier RatePresent: [tariff_rate] is present, and is neither [None] nor the
    empty string. *)
Definition rate_present (post : dict) : bool :=
  match classification_of post with
  | VDict cls =>
      match Py.lookup "tariff_rate" cls with
      | None => false
      | Some VNone => false
      | Some (VStr s) => negb (String.eqb s EmptyString)
      | Some _ => true
      end
  | _ => false
  end.

(** ** Sample data *)

Module Sample.

Definition parse (s : string) : res value :=
  if String.eqb s "{}" then Ok (VDict [])
  else Raise (Exn "JSONDecodeError" "Expecting value: line 1 column 1 (char 0)").

Definition offline (url : value) : get_reply :=
  GetRaises (Exn "ConnectionError" "Max retries exceeded").

(** The service refuses the first request as oversized and answers the
    second one. *)
Definition oversized_once : world :=
  {| requests_get := fun _ => offline;
     responses_create := fun t _ =>
       match t with
       | [] => CreateRaises (Exn "BadRequestError" "Error code: 400 - Input is Too Long for this model")
       | _ => Created "{}"
       end;
     json_loads := parse |}.

(** Every download is answered with status 404. *)
Definition not_found : world :=
  {| requests_get := fun _ _ => GetReturns (Response 404 []);
     responses_create := fun _ _ => Created "{}";
     json_loads := parse |}.

(** The service answers with text that is not JSON. *)
Definition malformed : world :=
  {| requests_get := fun _ => offline;
     responses_create := fun _ _ => Created "Sorry, I cannot help with that.";
     json_loads := parse |}.

(** Every download succeeds with the three bytes of [Man]. *)
Definition online : world :=
  {| requests_get := fun _ _ => GetReturns (Response 200 [Byte.x4d; Byte.x61; Byte.x6e]);
     responses_create := fun _ _ => Created "{}";
     json_loads := parse |}.

Definition image_url : string := "https://example.com/chart.jpg".

Definition image : dict := [("type", VStr "image"); ("url", VStr image_url)].

Definition post_with_image : dict :=
  [("created_at", VStr "2025-04-03T09:30:00Z");
   ("content", VStr "See the chart");
   ("media", VList [VDict image])].

Definition attachment : value :=
  VDict [("id", VStr "77"); ("type", VStr "image"); ("url", VStr image_url);
         ("detail", VStr "high")].

Definition raw_post_with_image : dict :=
  [("id", VStr "114270000000000001");
   ("created_at", VStr "2025-04-03T09:30:00Z");
   ("content", VStr "See the chart");
   ("media_attachments", VList [attachment])].

Definition raw_posts : list dict :=
  [raw_post_with_image;
   [("id", VStr "114270000000000002");
    ("created_at", VStr "2025-04-03T11:00:00Z");
    ("content", VStr "Good morning")]].

Definition steel : dict :=
  [("tariffs_related", VBool true);
   ("affected_country", VStr "China");
   ("affected_region", VNone);
   ("products", VList [VStr "steel"; VStr "aluminum"]);
   ("published_time", VStr "2025-04-02T20:00:00Z");
   ("tariff_rate", VStr "25%");
   ("classification", VStr "official");
   ("media_analysis", VNone)].

Definition steel_post : dict :=
  [("created_at", VStr "2025-04-02T20:00:00Z");
   ("content", VStr "25% tariffs on steel");
   ("media", VList []);
   ("classification", VDict steel)].

Definition failed_post : dict :=
  [("created_at", VStr "2025-04-03T11:00:00Z");
   ("content", VStr "Good morning");
   ("media", VList []);
   ("classification", VDict [("error", VStr "Connection error.")])].

Definition enriched : list dict := [steel_post; failed_post].

Definition post : dict :=
  [("created_at", VStr "2025-04-02T20:00:00Z");
   ("content", VStr "25% tariffs on steel");
   ("media", VList [])].

End Sample.

(** * [prompt_chatgpt.py]

    The script that gathers the Python files of a directory into one text
    file.  What it asks of the file system is given by a [directory]: the
    paths that [rglob] lists, what reading each of them gives, and the file
    [prompt.txt].  What it does is an [outcome]: the text written to the
    output file, the lines printed, and the exception that ended it. *)

Module Combine.

(** A path below the current directory: its components, outermost first. *)
Definition path := list string.

(** [file.name]. *)
Definition name (file : path) : string := List.last file EmptyString.

(** [str(file.relative_to(current_dir))]. *)
Definition relative (file : path) : string :=
  match file with
  | [] => "."
  | _ => Str.join "/" file
  end.

(** [any(excl.lower() in filename.lower() for excl in excluded_substrings)]. *)
Definition excluded_by (excluded_substrings : list string) (file : path) : bool :=
  existsb (fun excl => Str.contains (Str.lower excl) (Str.lower (name file)))
          excluded_substrings.

(** The loop of [get_python_files]: the files kept and the lines printed. *)
Fixpoint filter_files (excluded_substrings : list string) (all_py_files : list path)
    : list path * list string :=
  match all_py_files with
  | [] => ([], [])
  | file :: rest =>
      let (included_files, printed) := filter_files excluded_substrings rest in
      if excluded_by excluded_substrings file
      then (included_files, ("Excluding file: " ++ relative file) :: printed)
      else (file :: included_files, printed)
  end.

(** [get_python_files], given the list that [rglob] made. *)
Definition get_python_files (all_py_files : list path) (excluded_substrings : list string)
    : list path * list string :=
  let excluded_substrings := (excluded_substrings ++ ["prompt_chatgpt.py"])%list in
  filter_files excluded_substrings all_py_files.

Record directory := Directory {
  listing : list path;
  read : path -> res string;
  prompt : option (res string)
}.

Record outcome := Outcome {
  written : option string;
  printed : list string;
  raised : option exn
}.

(** The loop of [combine_files]: the text written so far and the lines
    printed so far. *)
Fixpoint write_files (read : path -> res string) (included_files : list path)
    (out : string) (printed : list string) : string * list string :=
  match included_files with
  | [] => (out, printed)
  | file :: rest =>
      let relative_path := relative file in
      let out := out ++ "# " ++ relative_path ++ Str.nl in
      match read file with
      | Ok contents => write_files read rest (out ++ contents ++ Str.nl ++ Str.nl) printed
      | Raise e =>
          let message := "Error reading " ++ relative_path ++ ": " ++ exn_str e in
          write_files read rest out (printed ++ [message])%list
      end
  end.

Definition instruction : string :=
  "Just modify those files that need so, for those, give the full code once modified. "
    ++ Str.nl.

Definition combined_message (included_files : list path) (output_file : string) : string :=
  "Combined " ++ Str.of_Z (Z.of_nat (length included_files)) ++ " Python files into "
    ++ output_file.

(** [combine_files]; [output_file] is the text of the output path. *)
Definition combine_files (dir : directory) (included_files : list path)
    (output_file : string) : outcome :=
  match included_files with
  | [] => {| written := None; printed := ["No Python files to include."]; raised := None |}
  | _ =>
      let (out, printed) := write_files (read dir) included_files EmptyString [] in
      let out := out ++ instruction in
      match prompt dir with
      | None =>
          {| written := Some out;
             printed := (printed ++ [combined_message included_files output_file])%list;
             raised := None |}
      | Some r =>
          let out := out ++ Str.nl ++ Str.nl ++ "# Additional Prompt" ++ Str.nl in
          match r with
          | Ok contents =>
              {| written := Some (out ++ contents ++ Str.nl ++ Str.nl);
                 printed := (printed ++ [combined_message included_files output_file])%list;
                 raised := None |}
          | Raise e => {| written := Some out; printed := printed; raised := Some e |}
          end
      end
  end.

(** The defaults of [parse_arguments]. *)
Definition default_exclude : list string := ["linear_model_old"; "prompt_chatgpt"].
Definition default_output : string := "combined_python_files.txt".

(** [main], given the parsed [--exclude] and the text of the output path. *)
Definition main (dir : directory) (exclude : list string) (output_file : string) : outcome :=
  let (included_files, excluding) := get_python_files (listing dir) exclude in
  let result := combine_files dir included_files output_file in
  {| written := written result;
     printed := (excluding ++ printed result)%list;
     raised := raised result |}.

End Combine.

(** * More vocabulary *)

Definition is_get (c : call) : Prop :=
  match c with
  | CallGet _ => True
  | CallCreate _ => False
  end.

Definition is_create (c : call) : Prop :=
  match c with
  | CallGet _ => False
  | CallCreate _ => True
  end.

Definition is_str (v : value) : Prop :=
  match v with
  | VStr _ => True
  | _ => False
  end.

(** A value that [for] cannot iterate over. *)
Definition not_iterable (v : value) : Prop :=
  match v with
  | VNone | VBool _ | VInt _ => True
  | _ => False
  end.

(** The block of one readable file in the combined text. *)
Definition block (file : Combine.path) (contents : string) : string :=
  "# " ++ Combine.relative file ++ Str.nl ++ contents ++ Str.nl ++ Str.nl.

(** The header that is all an unreadable file leaves in the combined text. *)
Definition header (file : Combine.path) : string :=
  "# " ++ Combine.relative file ++ Str.nl.

(** What one file adds to the combined text. *)
Definition contribution (read : Combine.path -> res string) (file : Combine.path) : string :=
  match read file with
  | Ok contents => block file contents
  | Raise _ => header file
  end.

Fixpoint concat_strings (parts : list string) : string :=
  match parts with
  | [] => EmptyString
  | part :: rest => part ++ concat_strings rest
  end.

(** The line printed for a file that is left out. *)
Definition excluding_line (file : Combine.path) : string :=
  "Excluding file: " ++ Combine.relative file.

(** The lines printed for the files that cannot be read, in their order. *)
Fixpoint error_lines (read : Combine.path -> res string) (files : list Combine.path)
    : list string :=
  match files with
  | [] => []
  | file :: rest =>
      match read file with
      | Ok _ => error_lines read rest
      | Raise e =>
          ("Error reading " ++ Combine.relative file ++ ": " ++ exn_str e)
            :: error_lines read rest
      end
  end.

(** The heading under which [prompt.txt] is appended. *)
Definition prompt_heading : string :=
  Str.nl ++ Str.nl ++ "# Additional Prompt" ++ Str.nl.

(** What follows the instruction line, by the state of [prompt.txt]. *)
Definition prompt_section (prompt : option (res string)) : string :=
  match prompt with
  | None => EmptyString
  | Some (Ok contents) => prompt_heading ++ contents ++ Str.nl ++ Str.nl
  | Some (Raise _) => prompt_heading
  end.

(** A file that no entry of the list excludes. *)
Definition kept (excluded_substrings : list string) (file : Combine.path) : Prop :=
  forall excl,
    excl ∈ excluded_substrings ->
    Str.contains (Str.lower excl) (Str.lower (Combine.name file)) = false.

Module Tree.

Definition files : list Combine.path :=
  [["main.py"]; ["tools"; "Prompt_ChatGPT.py"]; ["pkg"; "util_test.py"]; ["broken.py"]].

Definition read (file : Combine.path) : res string :=
  if String.eqb (Combine.relative file) "main.py" then Ok "import os"
  else if String.eqb (Combine.relative file) "pkg/util_test.py" then Ok "assert True"
  else Raise (Exn "UnicodeDecodeError" "invalid start byte").

Definition plain : Combine.directory :=
  {| Combine.listing := files; Combine.read := read; Combine.prompt := None |}.

Definition with_prompt : Combine.directory :=
  {| Combine.listing := files; Combine.read := read;
     Combine.prompt := Some (Ok "Add type hints.") |}.

Definition locked_prompt : Combine.directory :=
  {| Combine.listing := files; Combine.read := read;
     Combine.prompt := Some (Raise (Exn "PermissionError" "Permission denied")) |}.

End Tree.

(** * Properties *)

(** ** Strings *)

Lemma length_slice_to k s :
  String.length (Str.slice_to k s) = Nat.min k (String.length s).
Proof.
  unfold Str.slice_to. revert k. induction s as [|c s IH]; intros [|k]; simpl; auto.
Qed.

Lemma slice_to_prefix k s : String.prefix (Str.slice_to k s) s = true.
Proof.
  unfold Str.slice_to. revert k. induction s as [|c s IH]; intros [|k]; simpl; auto.
  destruct (ascii_dec c c); [apply IH | congruence].
Qed.

Lemma append_assoc (a b c : string) : (a ++ b) ++ c = a ++ (b ++ c).
Proof.
  induction a as [|x a IH]; [reflexivity|].
  change (String x ((a ++ b) ++ c) = String x (a ++ (b ++ c))).
  rewrite IH. reflexivity.
Qed.

(** ** The library models on sample inputs *)

Example dumps_media :
  Json.dumps (VList [VDict Sample.image; VNone; VInt (-3)]) =
    "[{" ++ Str.quoted "type" ++ ": " ++ Str.quoted "image" ++ ", " ++ Str.quoted "url"
         ++ ": " ++ Str.quoted "https://example.com/chart.jpg" ++ "}, null, -3]".
Proof. reflexivity. Qed.

Example dumps_escapes :
  Json.dumps (VStr (Str.dq ++ "a" ++ Str.bs ++ Str.nl)) =
    Str.dq ++ Str.bs ++ Str.dq ++ "a" ++ Str.bs ++ Str.bs ++ Str.bs ++ "n" ++ Str.dq.
Proof. reflexivity. Qed.

Example str_of_values :
  map Repr.str [VNone; VBool true; VInt 42; VStr "as is"; VList [VStr "it's"; VNone]] =
    ["None"; "True"; "42"; "as is"; "[" ++ Str.quoted "it's" ++ ", None]"].
Proof. reflexivity. Qed.

Example b64encode_padding :
  map Base64.b64encode
      [[Byte.x4d; Byte.x61; Byte.x6e]; [Byte.x4d; Byte.x61]; [Byte.x4d];
       [Byte.xff; Byte.xfe; Byte.x00; Byte.x10]] =
    ["TWFu"; "TWE="; "TQ=="; "//4AEA=="].
Proof. reflexivity. Qed.

Example int_mul_point_nine_samples :
  map Float.int_mul_point_nine [0; 1; 9; 10; 19; 10000; 12345]%Z =
    map Ok [0; 0; 8; 9; 17; 9000; 11110]%Z.
Proof. reflexivity. Qed.

(** Above [2 ^ 50] the rounding of the product shows: nine tenths of this
    length are [1603804793888313.9], and the double nearest to the product is
    [1603804793888314]. *)
Example int_mul_point_nine_rounds_up :
  Float.int_mul_point_nine 1782005326542571 = Ok 1603804793888314%Z /\
  (9 * 1782005326542571 / 10 = 1603804793888313)%Z.
Proof. split; reflexivity. Qed.

Example lower_finds_too_long :
  too_long (Exn "BadRequestError" "Input is Too Long for this model") = true /\
  too_long (Exn "InternalServerError" "internal server error") = false.
Proof. split; reflexivity. Qed.

(** ** Double-precision arithmetic

    The product [len(prompt_text) * 0.9] is rounded to the nearest double.
    Up to [2 ^ 49] characters the rounding cannot carry the product across
    an integer, so that [int] truncates it to the integer part of nine
    tenths of the length; up to [2 ^ 63] characters the product is finite,
    so that [int] returns. *)

Section FloatFacts.

Local Open Scope Z_scope.

Lemma digits2_pos_bounds p :
  2 ^ (Z.pos (digits2_pos p) - 1) <= Z.pos p < 2 ^ Z.pos (digits2_pos p).
Proof.
  induction p as [p IH|p IH|]; simpl digits2_pos.
  - rewrite Pos2Z.inj_succ. replace (Z.succ (Z.pos (digits2_pos p)) - 1) with (Z.succ (Z.pos (digits2_pos p) - 1)) by lia.
    rewrite !Z.pow_succ_r by lia. lia.
  - rewrite Pos2Z.inj_succ. replace (Z.succ (Z.pos (digits2_pos p)) - 1) with (Z.succ (Z.pos (digits2_pos p) - 1)) by lia.
    rewrite !Z.pow_succ_r by lia. lia.
  - simpl. lia.
Qed.

Lemma digits2_pos_unique p d :
  2 ^ (d - 1) <= Z.pos p < 2 ^ d -> Z.pos (digits2_pos p) = d.
Proof.
  intros [Hlo Hhi]. pose proof (digits2_pos_bounds p) as [Blo Bhi].
  assert (0 < d). { destruct (Z_lt_le_dec 0 d); auto. rewrite Z.pow_neg_r in Hlo by lia.
    destruct (Z.eq_dec d 0); subst; simpl in *; try lia. rewrite Z.pow_neg_r in Hhi by lia. lia. }
  set (D := Z.pos (digits2_pos p)) in *.
  assert (D - 1 < d). { apply (Z.pow_lt_mono_r_iff 2); lia. }
  assert (d - 1 < D). { apply (Z.pow_lt_mono_r_iff 2); lia. }
  lia.
Qed.

Lemma shr_1_m mrs : 0 <= shr_m mrs -> shr_m (shr_1 mrs) = shr_m mrs / 2.
Proof.
  destruct mrs as [m r s]; simpl. intros H.
  destruct m as [|[p|p|]|p]; cbn [shr_1 shr_m]; try lia; try reflexivity.
  - apply Z.div_unique with 1; lia.
  - apply Z.div_unique with 0; lia.
Qed.

Lemma iter_pos_shr_1_m k : forall mrs,
  0 <= shr_m mrs -> shr_m (SpecFloat.iter_pos shr_1 k mrs) = shr_m mrs / 2 ^ Z.pos k.
Proof.
  induction k as [k IH|k IH|]; intros mrs H; cbn [SpecFloat.iter_pos].
  - assert (H1 : 0 <= shr_m (shr_1 mrs)) by (rewrite shr_1_m by auto; apply Z.div_pos; lia).
    assert (H2 : 0 <= shr_m (SpecFloat.iter_pos shr_1 k (shr_1 mrs))) by (rewrite IH by auto; apply Z.div_pos; lia).
    rewrite IH, IH, shr_1_m by auto.
    rewrite !Z.div_div by lia. f_equal.
    replace (Z.pos k~1) with (1 + Z.pos k + Z.pos k) by lia.
    rewrite !Z.pow_add_r by lia. lia.
  - assert (H2 : 0 <= shr_m (SpecFloat.iter_pos shr_1 k mrs)) by (rewrite IH by auto; apply Z.div_pos; lia).
    rewrite IH, IH by auto.
    rewrite !Z.div_div by lia. f_equal.
    replace (Z.pos k~0) with (Z.pos k + Z.pos k) by lia.
    rewrite !Z.pow_add_r by lia. lia.
  - rewrite shr_1_m by auto. reflexivity.
Qed.

Lemma shr_fexp_shift m e l :
  0 < m ->
  0 <= Zdigits2 m - 53 -> -1074 <= e + (Zdigits2 m - 53) ->
  exists mrs,
    shr_fexp 53 1024 m e l = (mrs, e + (Zdigits2 m - 53)) /\
    shr_m mrs = m / 2 ^ (Zdigits2 m - 53) /\
    (Zdigits2 m - 53 = 0 -> loc_of_shr_record mrs = l).
Proof.
  intros Hm Hk He. unfold shr_fexp, fexp, emin.
  replace (Z.max (Zdigits2 m + e - 53) (3 - 1024 - 53) - e) with (Zdigits2 m - 53) by lia.
  assert (Hrec : shr_m (shr_record_of_loc m l) = m) by (destruct l as [|[]]; reflexivity).
  destruct (Zdigits2 m - 53) as [|k|k] eqn:Ek; try lia.
  - exists (shr_record_of_loc m l). cbn [shr]. rewrite Z.add_0_r, Hrec, Z.pow_0_r, Z.div_1_r.
    repeat split. intros _. destruct l as [|[]]; reflexivity.
  - exists (SpecFloat.iter_pos shr_1 k (shr_record_of_loc m l)). cbn [shr].
    repeat split; [|intros; discriminate].
    rewrite iter_pos_shr_1_m by (rewrite Hrec; lia). now rewrite Hrec.
Qed.

Lemma round_nearest_even_step m l :
  round_nearest_even m l = m \/ round_nearest_even m l = m + 1.
Proof. destruct l as [|[]]; simpl; auto. destruct (Z.even m); auto. Qed.

Lemma binary_round_aux_finite (m : positive) (e : Z) :
  let k := Z.pos (digits2_pos m) - 53 in
  0 <= k -> -1074 <= e + k -> e + k + 1 <= 971 ->
  exists M2 e2,
    binary_round_aux 53 1024 false (Z.pos m) e loc_Exact = S754_finite false M2 e2 /\
    ((e2 = e + k /\
      (Z.pos M2 = Z.pos m / 2 ^ k \/ Z.pos M2 = Z.pos m / 2 ^ k + 1)) \/
     (e2 = e + k + 1 /\ 2 * Z.pos M2 = Z.pos m / 2 ^ k + 1)) /\
    (k = 0 -> M2 = m /\ e2 = e).
Proof.
  intros k Hk Hlo Hhi.
  destruct (shr_fexp_shift (Z.pos m) e loc_Exact) as (mrs & E1 & Hm1 & Hl1);
    [lia | exact Hk | exact Hlo |].
  change (Zdigits2 (Z.pos m) - 53) with k in E1, Hm1, Hl1.
  pose proof (digits2_pos_bounds m) as [Blo Bhi].
  assert (HM : 2 ^ 52 <= Z.pos m / 2 ^ k < 2 ^ 53).
  { assert (P : 0 < 2 ^ k) by (apply Z.pow_pos_nonneg; lia).
    replace (Z.pos (digits2_pos m)) with (k + 53) in Bhi by (unfold k; lia).
    replace (Z.pos (digits2_pos m) - 1) with (k + 52) in Blo by (unfold k; lia).
    rewrite Z.pow_add_r in Blo, Bhi by lia.
    split.
    - apply Z.div_le_lower_bound; lia.
    - apply Z.div_lt_upper_bound; lia. }
  unfold binary_round_aux. rewrite E1.
  set (M1 := round_nearest_even (shr_m mrs) (loc_of_shr_record mrs)).
  assert (HM1 : M1 = Z.pos m / 2 ^ k \/ M1 = Z.pos m / 2 ^ k + 1).
  { unfold M1. rewrite <- Hm1. apply round_nearest_even_step. }
  assert (HM1k : k = 0 -> M1 = Z.pos m).
  { intros K. unfold M1. rewrite (Hl1 K). cbn [round_nearest_even]. rewrite Hm1, K.
    now rewrite Z.pow_0_r, Z.div_1_r. }
  clearbody M1.
  destruct M1 as [|p1|p1]; try lia.
  destruct (Z_lt_le_dec (Z.pos p1) (2 ^ 53)) as [Hlt|Hge].
  - assert (D1 : Z.pos (digits2_pos p1) = 53) by (apply digits2_pos_unique; lia).
    destruct (shr_fexp_shift (Z.pos p1) (e + k) loc_Exact) as (mrs2 & E2 & Hm2 & _);
      cbn [Zdigits2]; try lia.
    cbn [Zdigits2] in E2, Hm2. rewrite D1 in E2, Hm2. rewrite E2.
    change (53 - 53) with 0 in *. rewrite Z.pow_0_r, Z.div_1_r in Hm2. rewrite Hm2.
    rewrite Z.add_0_r.
    replace (e + k <=? 1024 - 53) with true by (symmetry; apply Z.leb_le; lia).
    exists p1, (e + k). split; [reflexivity|]. split; [left; split; [reflexivity|exact HM1]|].
    intros K. specialize (HM1k K). split; [congruence | lia].
  - assert (Heq : Z.pos p1 = 2 ^ 53) by lia.
    assert (D1 : Z.pos (digits2_pos p1) = 54) by (apply digits2_pos_unique; rewrite Heq; simpl; lia).
    destruct (shr_fexp_shift (Z.pos p1) (e + k) loc_Exact) as (mrs2 & E2 & Hm2 & _);
      cbn [Zdigits2]; try lia.
    cbn [Zdigits2] in E2, Hm2. rewrite D1 in E2, Hm2. rewrite E2.
    change (54 - 53) with 1 in *. rewrite Heq in Hm2.
    change (2 ^ 53 / 2 ^ 1) with (Z.pos 4503599627370496) in Hm2. rewrite Hm2.
    replace (e + k + 1 <=? 1024 - 53) with true by (symmetry; apply Z.leb_le; lia).
    exists 4503599627370496%positive, (e + k + 1). split; [reflexivity|]. split.
    + right. split; [reflexivity|]. change (2 ^ 53) with 9007199254740992 in *. lia.
    + intros K. specialize (HM1k K). rewrite K, Z.pow_0_r, Z.div_1_r in HM.
      change (2 ^ 53) with 9007199254740992 in *. lia.
Qed.

Lemma iter_xO p s : Z.pos (Pos.iter xO p s) = Z.pos p * 2 ^ Z.pos s.
Proof.
  induction s as [|s IH] using Pos.peano_ind.
  - simpl. lia.
  - rewrite Pos.iter_succ, Pos2Z.inj_xO, IH, Pos2Z.inj_succ, Z.pow_succ_r by lia. lia.
Qed.

Lemma of_int_small (p : positive) :
  Z.pos p < 2 ^ 53 ->
  exists m1 s,
    Float.of_int (Z.pos p) = Ok (S754_finite false m1 (- s)) /\
    0 <= s /\ Z.pos m1 = Z.pos p * 2 ^ s /\ 2 ^ 52 <= Z.pos m1 < 2 ^ 53.
Proof.
  intros Hp. pose proof (digits2_pos_bounds p) as [Blo Bhi].
  set (d := Z.pos (digits2_pos p)) in *.
  assert (Hd : 1 <= d <= 53).
  { split; [unfold d; lia|]. destruct (Z_lt_le_dec 53 d); [|lia].
    assert (2 ^ 53 <= 2 ^ (d - 1)) by (apply Z.pow_le_mono_r; lia). lia. }
  assert (Hsplit : 2 ^ 52 = 2 ^ (d - 1) * 2 ^ (53 - d) /\ 2 ^ 53 = 2 ^ d * 2 ^ (53 - d)).
  { rewrite <- !Z.pow_add_r by lia. split; f_equal; lia. }
  destruct Hsplit as [S52 S53].
  assert (Ppos : 0 < 2 ^ (53 - d)) by (apply Z.pow_pos_nonneg; lia).
  unfold Float.of_int, binary_normalize, binary_round, shl_align, fexp, emin, Float.prec, Float.emax.
  fold d.
  replace (Z.max (d + 0 - 53) (3 - 1024 - 53) - 0) with (d - 53) by lia.
  replace (Z.max (d + 0 - 53) (3 - 1024 - 53)) with (d - 53) by lia.
  destruct (d - 53) as [|s|s] eqn:Es; try lia.
  - assert (D : Z.pos (digits2_pos p) - 53 = 0) by (fold d; lia).
    destruct (binary_round_aux_finite p 0) as (M2 & e2 & E & _ & Hk); rewrite ?D; try lia.
    destruct (Hk D) as [-> ->]. rewrite E.
    exists p, 0. replace (53 - d) with 0 in * by lia. rewrite Z.pow_0_r in *.
    replace (d - 1) with 52 in Blo by lia. repeat split; lia.
  - set (m1 := Pos.iter xO p s).
    assert (Hm1 : Z.pos m1 = Z.pos p * 2 ^ (53 - d)).
    { unfold m1. rewrite iter_xO. f_equal. f_equal. lia. }
    assert (Bm1 : 2 ^ 52 <= Z.pos m1 < 2 ^ 53).
    { rewrite Hm1, S52, S53. split.
      - apply Z.mul_le_mono_nonneg_r; lia.
      - apply Z.mul_lt_mono_pos_r; lia. }
    assert (D : Z.pos (digits2_pos m1) - 53 = 0).
    { rewrite (digits2_pos_unique m1 53); [reflexivity|]. exact Bm1. }
    destruct (binary_round_aux_finite m1 (Z.neg s)) as (M2 & e2 & E & _ & Hk); rewrite ?D; try lia.
    destruct (Hk D) as [-> ->]. rewrite E.
    exists m1, (53 - d). replace (- (53 - d)) with (Z.neg s) by lia.
    repeat split; try lia.
Qed.

Lemma int_mul_point_nine_exact (n : Z) :
  0 <= n < 2 ^ 49 -> Float.int_mul_point_nine n = Ok (9 * n / 10).
Proof.
  intros [Hn0 Hn]. destruct n as [|p|p]; try lia; [reflexivity|].
  destruct (of_int_small p) as (m1 & s & E & Hs & Hm1 & Bm1).
  { change (2 ^ 49) with 562949953421312 in Hn. change (2 ^ 53) with 9007199254740992. lia. }
  unfold Float.int_mul_point_nine. rewrite E. cbn [res_bind].
  unfold Float.mul, Float.point_nine, SFmul, Float.prec, Float.emax. cbn [xorb].
  set (c := 8106479329266893%positive).
  assert (Hs4 : 4 <= s).
  { destruct (Z_lt_le_dec s 4); [|lia].
    assert (2 ^ s <= 2 ^ 3) by (apply Z.pow_le_mono_r; lia).
    change (2 ^ 49) with 562949953421312 in Hn. change (2 ^ 52) with 4503599627370496 in Bm1.
    change (2 ^ 3) with 8 in *. nia. }
  assert (Hs52 : s <= 52).
  { destruct (Z_lt_le_dec 52 s); [|lia].
    assert (2 ^ 53 <= 2 ^ s) by (apply Z.pow_le_mono_r; lia). nia. }
  pose proof (digits2_pos_bounds (m1 * c)) as [Blo Bhi].
  set (D := Z.pos (digits2_pos (m1 * c))) in *.
  rewrite Pos2Z.inj_mul in Blo, Bhi.
  change (2 ^ 52) with 4503599627370496 in Bm1. change (2 ^ 53) with 9007199254740992 in Bm1.
  assert (HD : D = 105 \/ D = 106).
  { assert (2 ^ 104 <= Z.pos m1 * Z.pos c) by (change (2 ^ 104) with (4503599627370496 * 4503599627370496); unfold c; nia).
    assert (Z.pos m1 * Z.pos c < 2 ^ 106) by (change (2 ^ 106) with (9007199254740992 * 9007199254740992); unfold c; nia).
    destruct (Z_lt_le_dec D 105).
    { assert (2 ^ D <= 2 ^ 104) by (apply Z.pow_le_mono_r; lia). lia. }
    destruct (Z_lt_le_dec 106 D).
    { assert (2 ^ 106 <= 2 ^ (D - 1)) by (apply Z.pow_le_mono_r; lia). lia. }
    lia. }
  pose proof (binary_round_aux_finite (m1 * c) (- s + -53)) as Hround.
  cbv zeta in Hround. fold D in Hround.
  destruct Hround as (M2 & e2 & E2 & Hval & _); try lia.
  rewrite E2. cbn [Float.to_int].
  set (q := 9 * Z.pos p / 10).
  assert (Hq : 10 * q <= 9 * Z.pos p < 10 * q + 10).
  { unfold q. pose proof (Z.mul_div_le (9 * Z.pos p) 10 ltac:(lia)).
    pose proof (Z.mul_succ_div_gt (9 * Z.pos p) 10 ltac:(lia)). lia. }
  set (A' := 2 ^ (s - 1)).
  assert (HA' : 8 <= A').
  { unfold A'. change 8 with (2 ^ 3). apply Z.pow_le_mono_r; lia. }
  assert (HA : 2 ^ s = 2 * A').
  { unfold A'. replace s with (1 + (s - 1)) at 1 by lia. rewrite Z.pow_add_r by lia. reflexivity. }
  rewrite HA in Hm1.
  assert (HqA : 10 * (q * A') <= 9 * (Z.pos p * A') <= 10 * (q * A') + 9 * A') by nia.
  set (P := Z.pos m1 * Z.pos c) in *.
  assert (HP : 10 * P = 2 * 9 * 9007199254740992 * (Z.pos p * A') + 4 * (Z.pos p * A')).
  { unfold P, c. rewrite Hm1. lia. }
  assert (HpA : 2 * (Z.pos p * A') < 9007199254740992) by lia.
  set (pA := Z.pos p * A') in *. set (qA := q * A') in *.
  rewrite !Pos2Z.inj_mul in Hval. fold P in Hval.
  destruct HD as [HD|HD]; rewrite HD in Hval;
    [change (105 - 53) with 52 in Hval | change (106 - 53) with 53 in Hval].
  - (* the product has 105 digits: 52 bits are shifted out *)
    change (2 ^ 52) with 4503599627370496 in Hval.
    pose proof (Z.mul_div_le P 4503599627370496 ltac:(lia)) as M_lo.
    pose proof (Z.mul_succ_div_gt P 4503599627370496 ltac:(lia)) as M_hi.
    set (M := P / 4503599627370496) in *.
    destruct Hval as [[-> HM2]|[-> HM2]].
    + replace (- s + -53 + 52) with (- (s + 1)) by lia.
      destruct (s + 1) as [|j|j] eqn:Ej; try lia. cbn [Z.opp].
      f_equal. symmetry. apply Z.div_unique_pos with (Z.pos M2 - q * 2 ^ Z.pos j); [|lia].
      rewrite <- Ej. replace (s + 1) with (2 + (s - 1)) by lia.
      rewrite Z.pow_add_r by lia. fold A'. change (2 ^ 2) with 4.
      replace (q * (4 * A')) with (4 * qA) by (unfold qA; lia).
      destruct HM2 as [HM2|HM2]; rewrite HM2; lia.
    + replace (- s + -53 + 52 + 1) with (- s) by lia.
      destruct s as [|j|j] eqn:Ej; try lia. cbn [Z.opp].
      f_equal. symmetry. apply Z.div_unique_pos with (Z.pos M2 - q * 2 ^ Z.pos j); [|lia].
      rewrite HA. replace (q * (2 * A')) with (2 * qA) by (unfold qA; lia). lia.
  - (* the product has 106 digits: 53 bits are shifted out *)
    change (2 ^ 53) with 9007199254740992 in Hval.
    pose proof (Z.mul_div_le P 9007199254740992 ltac:(lia)) as M_lo.
    pose proof (Z.mul_succ_div_gt P 9007199254740992 ltac:(lia)) as M_hi.
    set (M := P / 9007199254740992) in *.
    destruct Hval as [[-> HM2]|[-> HM2]].
    + replace (- s + -53 + 53) with (- s) by lia.
      destruct s as [|j|j] eqn:Ej; try lia. cbn [Z.opp].
      f_equal. symmetry. apply Z.div_unique_pos with (Z.pos M2 - q * 2 ^ Z.pos j); [|lia].
      rewrite HA. replace (q * (2 * A')) with (2 * qA) by (unfold qA; lia).
      destruct HM2 as [HM2|HM2]; rewrite HM2; lia.
    + replace (- s + -53 + 53 + 1) with (- (s - 1)) by lia.
      destruct (s - 1) as [|j|j] eqn:Ej; try lia. cbn [Z.opp].
      f_equal. symmetry. apply Z.div_unique_pos with (Z.pos M2 - q * 2 ^ Z.pos j); [|lia].
      fold A'. fold qA. lia.
Qed.

Lemma digits2_pos_between p lo hi :
  2 ^ lo <= Z.pos p < 2 ^ hi -> 0 <= lo -> lo < Z.pos (digits2_pos p) <= hi.
Proof.
  intros [Hlo Hhi] H0. pose proof (digits2_pos_bounds p) as [Blo Bhi].
  set (d := Z.pos (digits2_pos p)) in *. split.
  - apply (Z.pow_lt_mono_r_iff 2); lia.
  - assert (d - 1 < hi); [|lia].
    assert (0 <= hi) by (destruct (Z_lt_le_dec hi 0); [rewrite Z.pow_neg_r in Hhi|]; lia).
    apply (Z.pow_lt_mono_r_iff 2); lia.
Qed.

Lemma of_int_finite (p : positive) :
  Z.pos p < 2 ^ 63 ->
  exists m1 e1,
    Float.of_int (Z.pos p) = Ok (S754_finite false m1 e1) /\
    Z.pos m1 <= 2 ^ 53 /\ -52 <= e1 <= 11.
Proof.
  intros Hp. destruct (Z_lt_le_dec (Z.pos p) (2 ^ 53)) as [Hsmall|Hlarge].
  - destruct (of_int_small p Hsmall) as (m1 & s & E & Hs & Hm1 & Bm1).
    exists m1, (- s). split; [exact E|]. split; [lia|].
    assert (s <= 52); [|lia].
    destruct (Z_lt_le_dec 52 s); [|lia].
    assert (2 ^ 53 <= 2 ^ s) by (apply Z.pow_le_mono_r; lia). nia.
  - pose proof (digits2_pos_between p 53 63 (conj Hlarge Hp) ltac:(lia)) as Hd.
    pose proof (digits2_pos_bounds p) as [_ Bhi].
    unfold Float.of_int, binary_normalize, binary_round, shl_align, fexp, emin,
      Float.prec, Float.emax.
    set (d := Z.pos (digits2_pos p)) in *.
    replace (Z.max (d + 0 - 53) (3 - 1024 - 53) - 0) with (d - 53) by lia.
    replace (Z.max (d + 0 - 53) (3 - 1024 - 53)) with (d - 53) by lia.
    destruct (d - 53) as [|k|k] eqn:Ek; try lia.
    pose proof (binary_round_aux_finite p 0) as Hround. cbv zeta in Hround.
    fold d in Hround. rewrite Ek in Hround.
    destruct Hround as (M2 & e2 & E & Hval & _); try lia.
    rewrite E. exists M2, e2. split; [reflexivity|].
    assert (HM : Z.pos p / 2 ^ Z.pos k < 2 ^ 53).
    { apply Z.div_lt_upper_bound; [apply Z.pow_pos_nonneg; lia|].
      rewrite <- Z.pow_add_r by lia. replace (Z.pos k + 53) with d by lia. exact Bhi. }
    assert (0 <= Z.pos p / 2 ^ Z.pos k) by (apply Z.div_pos; [lia | apply Z.pow_pos_nonneg; lia]).
    destruct Hval as [[-> HM2]|[-> HM2]]; split; lia.
Qed.

Lemma mul_point_nine_finite m1 e1 :
  Z.pos m1 <= 2 ^ 53 -> -52 <= e1 <= 11 ->
  exists M e, Float.mul (S754_finite false m1 e1) Float.point_nine = S754_finite false M e.
Proof.
  intros Hm1 He1.
  unfold Float.mul, Float.point_nine, SFmul, Float.prec, Float.emax. cbn [xorb].
  set (c := 8106479329266893%positive).
  assert (HP : 2 ^ 52 <= Z.pos (m1 * c) < 2 ^ 107).
  { rewrite Pos2Z.inj_mul. change (2 ^ 53) with 9007199254740992 in Hm1.
    change (2 ^ 52) with 4503599627370496.
    change (2 ^ 107) with (9007199254740992 * 18014398509481984). unfold c. nia. }
  pose proof (digits2_pos_between (m1 * c) 52 107 HP ltac:(lia)) as HD.
  pose proof (binary_round_aux_finite (m1 * c) (e1 + -53)) as Hround. cbv zeta in Hround.
  destruct Hround as (M & e & E & _); try lia.
  exists M, e. exact E.
Qed.

Lemma int_mul_point_nine_returns (n : Z) :
  0 <= n < 2 ^ 63 -> exists k, Float.int_mul_point_nine n = Ok k.
Proof.
  intros [Hn0 Hn]. destruct n as [|p|p]; try lia; [exists 0; reflexivity|].
  destruct (of_int_finite p Hn) as (m1 & e1 & E & Hm1 & He1).
  destruct (mul_point_nine_finite m1 e1 Hm1 He1) as (M & e & Emul).
  unfold Float.int_mul_point_nine. rewrite E. cbn [res_bind]. rewrite Emul.
  cbn [Float.to_int]. eauto.
Qed.

End FloatFacts.

(** ** The retry policy of [classify_post] *)

Lemma shorten_fits text : fits text -> shorten text = Ok (ninety_percent text).
Proof.
  intros Hfit. unfold shorten, ninety_percent.
  rewrite int_mul_point_nine_exact by (split; [lia | exact Hfit]).
  cbn [res_bind]. do 2 f_equal.
  rewrite <- (Nat2Z.id (9 * String.length text / 10)). f_equal.
  rewrite Nat2Z.inj_div, Nat2Z.inj_mul. reflexivity.
Qed.

Lemma length_ninety_percent text :
  String.length (ninety_percent text) = (9 * String.length text / 10)%nat.
Proof.
  unfold ninety_percent. rewrite length_slice_to. apply Nat.min_l.
  apply Nat.Div0.div_le_upper_bound. lia.
Qed.

Lemma request_and_parse_trace w text t :
  request_and_parse w text t = (attempt w text t, (t ++ [CallCreate (request_for text)])%list).
Proof.
  unfold attempt, request_and_parse, bind, do_request, create, lift.
  destruct (responses_create w t (request_for text)); reflexivity.
Qed.

Lemma shorten_representable text :
  representable text -> exists k, shorten text = Ok (Str.slice_to k text).
Proof.
  intros Hlen. unfold shorten.
  destruct (int_mul_point_nine_returns (Z.of_nat (String.length text))) as [k ->];
    [split; [lia | exact Hlen]|].
  cbn [res_bind]. eauto.
Qed.

Lemma classify_prompt_policy w text shortened t :
  shorten text = Ok shortened ->
  let call1 := CallCreate (request_for text) in
  let call2 := CallCreate (request_for shortened) in
  match attempt w text t with
  | Ok result => classify_prompt w text t = (Ok result, (t ++ [call1])%list)
  | Raise e =>
      if too_long e then
        match attempt w shortened (t ++ [call1]) with
        | Ok result =>
            classify_prompt w text t = (Ok result, (t ++ [call1; call2])%list)
        | Raise e2 =>
            classify_prompt w text t = (Ok (error_result e2), (t ++ [call1; call2])%list)
        end
      else classify_prompt w text t = (Ok (error_result e), (t ++ [call1])%list)
  end.
Proof.
  intros Hshorten call1 call2. unfold classify_prompt, try_except.
  rewrite request_and_parse_trace. fold call1.
  destruct (attempt w text t) as [result|e]; [reflexivity|].
  destruct (too_long e); [|reflexivity].
  unfold bind, lift. rewrite Hshorten.
  rewrite request_and_parse_trace. fold call2.
  replace ((t ++ [call1]) ++ [call2])%list with (t ++ [call1; call2])%list
    by (rewrite <- app_assoc; reflexivity).
  destruct (attempt w shortened (t ++ [call1])); reflexivity.
Qed.

(** C1. Whatever prompt [classify_post] has built, it calls the service at
    most twice.  A first attempt that succeeds gives its parsed result after
    one call.  A first attempt that fails, in the call or in the parser, with
    a message that says the input was too long is followed by one retry, on
    the prompt cut to nine tenths of its characters; a retry that fails gives
    the error marker of the second failure.  Any other first failure gives
    the error marker of the first failure, after one call. *)
Theorem C1_retry_policy w post text t t1 :
  build_prompt w post t = (Ok text, t1) ->
  fits text ->
  let call1 := CallCreate (request_for text) in
  let shortened := ninety_percent text in
  let call2 := CallCreate (request_for shortened) in
  String.length shortened = (9 * String.length text / 10)%nat /\
  String.prefix shortened text = true /\
  match attempt w text t1 with
  | Ok result => classify_post w post t = (Ok result, (t1 ++ [call1])%list)
  | Raise e =>
      if too_long e then
        match attempt w shortened (t1 ++ [call1]) with
        | Ok result =>
            classify_post w post t = (Ok result, (t1 ++ [call1; call2])%list)
        | Raise e2 =>
            classify_post w post t = (Ok (error_result e2), (t1 ++ [call1; call2])%list)
        end
      else classify_post w post t = (Ok (error_result e), (t1 ++ [call1])%list)
  end.
Proof.
  intros Hbuild Hfit call1 shortened call2.
  split; [apply length_ninety_percent|].
  split; [apply slice_to_prefix|].
  unfold classify_post, bind. rewrite Hbuild.
  exact (classify_prompt_policy w text (ninety_percent text) t1 (shorten_fits text Hfit)).
Qed.

Lemma C1_retry_policy_witness :
  let text := prompt_text Sample.post EmptyString in
  fits text /\
  classify_post Sample.oversized_once Sample.post [] =
    (Ok (VDict []),
     [CallCreate (request_for text); CallCreate (request_for (ninety_percent text))]).
Proof.
  intros text.
  assert (Hfit : fits text) by (vm_compute; reflexivity).
  split; [exact Hfit|].
  pose proof (C1_retry_policy Sample.oversized_once Sample.post text [] [] eq_refl Hfit)
    as (_ & _ & H).
  vm_compute in H. vm_compute. exact H.
Defined.

(** ** A malformed response *)

Lemma request_and_parse_as_call_failures w text t :
  request_and_parse (as_call_failures w) text t = request_and_parse w text t.
Proof.
  unfold request_and_parse, bind, do_request, create, lift. cbn.
  destruct (responses_create w t (request_for text)) as [output_text|e]; [|reflexivity].
  destruct (json_loads w output_text) eqn:Hparse; [|reflexivity].
  cbn. rewrite Hparse. reflexivity.
Qed.

Lemma classify_prompt_as_call_failures w text t :
  classify_prompt (as_call_failures w) text t = classify_prompt w text t.
Proof.
  unfold classify_prompt, try_except.
  rewrite request_and_parse_as_call_failures.
  destruct (request_and_parse w text t) as [[result|e] t1]; [reflexivity|].
  destruct (too_long e); [|reflexivity].
  unfold bind, lift. destruct (shorten text) as [shortened|e']; [|reflexivity].
  rewrite request_and_parse_as_call_failures. reflexivity.
Qed.

Lemma media_loop_as_call_failures w media acc t :
  media_loop (as_call_failures w) media acc t = media_loop w media acc t.
Proof.
  revert acc t. induction media as [|m media IH]; intros acc t; [reflexivity|].
  cbn [media_loop]. unfold bind.
  change (media_fragment (as_call_failures w) m t) with (media_fragment w m t).
  destruct (media_fragment w m t) as [[fragment|e] t']; [apply IH | reflexivity].
Qed.

(** C7. A response that the service gives but that is not valid JSON counts
    as a failed call, at either attempt: the attempt raises the parser's
    exception after the one call, and [classify_post] returns the same value
    and makes the same calls as in the world where the service itself fails
    with that exception instead of giving the malformed response. *)
Theorem C7_malformed_response_is_call_failure w :
  (forall text t output_text e,
      responses_create w t (request_for text) = Created output_text ->
      json_loads w output_text = Raise e ->
      request_and_parse w text t = (Raise e, (t ++ [CallCreate (request_for text)])%list) /\
      responses_create (as_call_failures w) t (request_for text) = CreateRaises e) /\
  (forall post t, classify_post w post t = classify_post (as_call_failures w) post t).
Proof.
  split.
  - intros text t output_text e Hcall Hparse. split.
    + unfold request_and_parse, bind, do_request, create, lift.
      rewrite Hcall, Hparse. reflexivity.
    + cbn. rewrite Hcall, Hparse. reflexivity.
  - intros post t. unfold classify_post, build_prompt, bind, lift, ret.
    destruct (Py.iter (Py.get_or post "media" (VList []))) as [items|e]; [|reflexivity].
    rewrite media_loop_as_call_failures.
    destruct (media_loop w items EmptyString t) as [[enhanced|e] t1]; [|reflexivity].
    symmetry. apply classify_prompt_as_call_failures.
Qed.

Lemma C7_malformed_response_is_call_failure_witness :
  let text := prompt_text Sample.post EmptyString in
  let e := Exn "JSONDecodeError" "Expecting value: line 1 column 1 (char 0)" in
  request_and_parse Sample.malformed text [] = (Raise e, [CallCreate (request_for text)]) /\
  classify_post Sample.malformed Sample.post [] = (Ok (error_result e), [CallCreate (request_for text)]).
Proof.
  intros text e.
  destruct (C7_malformed_response_is_call_failure Sample.malformed) as [Hattempt Hsame].
  split.
  - exact (proj1 (Hattempt text [] "Sorry, I cannot help with that." e eq_refl eq_refl)).
  - rewrite (Hsame Sample.post []). vm_compute. reflexivity.
Defined.

(** ** The media loop *)

Lemma media_fragment_not_image w m t :
  is_dict m ->
  (forall ty, Py.vget m "type" = Ok ty -> Py.eq_str ty "image" = false) ->
  media_fragment w m t = (Ok (Str.nl ++ "Non-image media: " ++ Json.dumps m), t).
Proof.
  destruct m as [| | | | |d]; try contradiction. intros _ Hty.
  unfold media_fragment, bind, lift. cbn [Py.vget Py.vget_or].
  rewrite (Hty _ eq_refl). reflexivity.
Qed.

Lemma media_fragment_status w d url resp t :
  Py.eq_str (Py.get d "type") "image" = true ->
  Py.lookup "url" d = Some url ->
  requests_get w t url = GetReturns resp ->
  media_fragment w (VDict d) t =
    (Ok (if (status_code resp =? 200)%Z
         then inlined (Repr.str (Py.get_or d "detail" (VStr "low")))
                      (Base64.b64encode (content resp))
         else Str.nl ++ "Image URL: " ++ Repr.str url),
     (t ++ [CallGet url])%list).
Proof.
  intros Hty Hurl Hget.
  unfold media_fragment, bind, lift, try_except, ret, get, inlined.
  cbn [Py.vget Py.vget_or Py.as_dict res_bind]. fold (Py.get d "type"). rewrite Hty.
  unfold Py.getitem, Py.get, Py.get_or. rewrite Hurl, Hget.
  destruct (status_code resp =? 200)%Z; reflexivity.
Qed.

Lemma media_fragment_raises w d url e t :
  Py.eq_str (Py.get d "type") "image" = true ->
  Py.lookup "url" d = Some url ->
  requests_get w t url = GetRaises e ->
  media_fragment w (VDict d) t =
    (Ok (Str.nl ++ "Image URL: " ++ Repr.str url ++ " (failed to fetch image)"),
     (t ++ [CallGet url])%list).
Proof.
  intros Hty Hurl Hget.
  unfold media_fragment, bind, lift, try_except, ret, get.
  cbn [Py.vget Py.vget_or Py.as_dict res_bind]. fold (Py.get d "type"). rewrite Hty.
  unfold Py.getitem, Py.get, Py.get_or. rewrite Hurl, Hget. reflexivity.
Qed.

Lemma media_fragment_no_url w d t :
  Py.eq_str (Py.get d "type") "image" = true ->
  Py.lookup "url" d = None ->
  media_fragment w (VDict d) t =
    (Ok (Str.nl ++ "Image URL: None (failed to fetch image)"), t).
Proof.
  intros Hty Hurl.
  unfold media_fragment, bind, lift, try_except, ret.
  cbn [Py.vget Py.vget_or Py.as_dict res_bind]. fold (Py.get d "type"). rewrite Hty.
  unfold Py.getitem, Py.get, Py.get_or. rewrite Hurl. reflexivity.
Qed.

Lemma media_fragment_returns w m t :
  is_dict m -> exists fragment t', media_fragment w m t = (Ok fragment, t').
Proof.
  destruct m as [| | | | |d]; try contradiction. intros _.
  destruct (Py.eq_str (Py.get d "type") "image") eqn:Hty.
  - destruct (Py.lookup "url" d) as [url|] eqn:Hurl.
    + destruct (requests_get w t url) as [resp|e] eqn:Hget.
      * rewrite (media_fragment_status w d url resp t Hty Hurl Hget). eauto.
      * rewrite (media_fragment_raises w d url e t Hty Hurl Hget). eauto.
    + rewrite (media_fragment_no_url w d t Hty Hurl). eauto.
  - rewrite media_fragment_not_image; [eauto | exact I |].
    intros ty Hget. cbn in Hget. injection Hget as <-. exact Hty.
Qed.

Lemma media_loop_returns w media :
  Forall is_dict media ->
  forall acc t, exists text t', media_loop w media acc t = (Ok text, t').
Proof.
  induction 1 as [|m media Hm _ IH]; intros acc t; cbn [media_loop].
  - unfold ret. eauto.
  - unfold bind. destruct (media_fragment_returns w m t Hm) as (fragment & t' & ->).
    apply IH.
Qed.

Lemma build_prompt_returns w post t :
  post_record post -> exists text t', build_prompt w post t = (Ok text, t').
Proof.
  intros (media & Hmedia & Hdicts). unfold build_prompt, bind, lift, ret.
  rewrite Hmedia. cbn [Py.iter].
  destruct (media_loop_returns w media Hdicts EmptyString t) as (text & t' & ->). eauto.
Qed.

Lemma classify_prompt_returns w text t :
  representable text ->
  exists v t', classify_prompt w text t = (Ok v, t') /\ classification_result w v.
Proof.
  intros Hlen. destruct (shorten_representable text Hlen) as [k Hshorten].
  pose proof (classify_prompt_policy w text _ t Hshorten) as H. cbv zeta in H.
  assert (Hparsed : forall text0 t0 v, attempt w text0 t0 = Ok v -> classification_result w v).
  { intros text0 t0 v. unfold attempt, request_and_parse, bind, do_request, create, lift.
    destruct (responses_create w t0 (request_for text0)) as [output_text|e]; cbn; [|discriminate].
    intros Hv. left. eauto. }
  destruct (attempt w text t) as [v|e] eqn:H1.
  - rewrite H. eauto.
  - destruct (too_long e).
    + destruct (attempt w (Str.slice_to k text) _) as [v|e2] eqn:H2; rewrite H.
      * eauto.
      * do 2 eexists. split; [reflexivity|]. right. eauto.
    + rewrite H. do 2 eexists. split; [reflexivity|]. right. eauto.
Qed.

Lemma classify_post_returns w post t :
  post_record post -> prompt_representable w post t ->
  exists v t', classify_post w post t = (Ok v, t') /\ classification_result w v.
Proof.
  intros Hpost Hlen. destruct (build_prompt_returns w post t Hpost) as (text & t1 & Hbuild).
  unfold classify_post, bind. rewrite Hbuild.
  apply classify_prompt_returns. exact (Hlen text t1 Hbuild).
Qed.

Lemma inlined_is_not_url_text detail payload text :
  inlined detail payload <> Str.nl ++ "Image URL: " ++ text.
Proof. unfold inlined. cbn. discriminate. Qed.

(** C6, as the specification states it, fails: the download of the sample
    image is answered with status 404, and the fragment is the bare
    reference, without the words about the failed download. *)
Lemma C6_counterexample :
  requests_get Sample.not_found [] (VStr Sample.image_url) = GetReturns (Response 404 []) /\
  fst (media_fragment Sample.not_found (VDict Sample.image) []) =
    Ok (Str.nl ++ "Image URL: https://example.com/chart.jpg") /\
  fst (media_fragment Sample.not_found (VDict Sample.image) []) <>
    Ok (Str.nl ++ "Image URL: https://example.com/chart.jpg (failed to fetch image)").
Proof.
  split; [reflexivity|]. split; [reflexivity|]. cbn. discriminate.
Qed.

(** C6, amended. For an image whose download returns a status other than
    200, the fragment is the line [Image URL: <url>], without the words
    [(failed to fetch image)] and without an inlined payload, and the loop
    appends exactly this line to the media text of the prompt. *)
Theorem C6_non_200_gives_bare_url w d url resp t :
  Py.eq_str (Py.get d "type") "image" = true ->
  Py.lookup "url" d = Some url ->
  requests_get w t url = GetReturns resp ->
  status_code resp <> 200%Z ->
  let fragment := Str.nl ++ "Image URL: " ++ Repr.str url in
  media_fragment w (VDict d) t = (Ok fragment, (t ++ [CallGet url])%list) /\
  (forall detail payload, fragment <> inlined detail payload) /\
  (forall rest acc,
      media_loop w (VDict d :: rest) acc t =
      media_loop w rest (acc ++ fragment) (t ++ [CallGet url])%list).
Proof.
  intros Hty Hurl Hget Hstatus fragment.
  assert (Hfragment : media_fragment w (VDict d) t = (Ok fragment, (t ++ [CallGet url])%list)).
  { rewrite (media_fragment_status w d url resp t Hty Hurl Hget).
    destruct (Z.eqb_spec (status_code resp) 200); [contradiction | reflexivity]. }
  split; [exact Hfragment|]. split.
  - intros detail payload Heq. symmetry in Heq.
    exact (inlined_is_not_url_text detail payload (Repr.str url) Heq).
  - intros rest acc. cbn [media_loop]. unfold bind. rewrite Hfragment. reflexivity.
Qed.

Lemma C6_non_200_gives_bare_url_witness :
  status_code (Response 404 []) <> 200%Z /\
  media_fragment Sample.not_found (VDict Sample.image) [] =
    (Ok (Str.nl ++ "Image URL: https://example.com/chart.jpg"),
     [CallGet (VStr Sample.image_url)]).
Proof.
  assert (Hstatus : status_code (Response 404 []) <> 200%Z) by (cbn; lia).
  split; [exact Hstatus|].
  exact (proj1 (C6_non_200_gives_bare_url Sample.not_found Sample.image
                  (VStr Sample.image_url) (Response 404 []) []
                  eq_refl eq_refl eq_refl Hstatus)).
Defined.

(** C8. For a post record whose prompt is representable, [classify_post]
    returns instead of raising: the
    prompt is always built, a download that raises leaves the reference of
    the image with the words [(failed to fetch image)] in it, and the value
    returned is what [json.loads] made of a response or an error marker. *)
Theorem C8_classify_post_returns w post t :
  post_record post ->
  prompt_representable w post t ->
  (exists text t1, build_prompt w post t = (Ok text, t1)) /\
  (exists v t2, classify_post w post t = (Ok v, t2) /\ classification_result w v) /\
  (forall d url e t0,
      Py.eq_str (Py.get d "type") "image" = true ->
      Py.lookup "url" d = Some url ->
      requests_get w t0 url = GetRaises e ->
      media_fragment w (VDict d) t0 =
        (Ok (Str.nl ++ "Image URL: " ++ Repr.str url ++ " (failed to fetch image)"),
         (t0 ++ [CallGet url])%list)).
Proof.
  intros Hpost Hlen. split; [apply build_prompt_returns; exact Hpost|].
  split; [apply classify_post_returns; assumption|].
  intros d url e t0. apply media_fragment_raises.
Qed.

Lemma C8_classify_post_returns_witness :
  post_record Sample.post_with_image /\
  prompt_representable Sample.malformed Sample.post_with_image [] /\
  exists v t2,
    classify_post Sample.malformed Sample.post_with_image [] = (Ok v, t2) /\
    classification_result Sample.malformed v.
Proof.
  assert (Hpost : post_record Sample.post_with_image).
  { exists [VDict Sample.image]. split; [reflexivity|]. repeat constructor. }
  assert (Hfit : prompt_representable Sample.malformed Sample.post_with_image []).
  { intros text t' Hbuild. vm_compute in Hbuild. injection Hbuild as <- _.
    vm_compute. reflexivity. }
  split; [exact Hpost|]. split; [exact Hfit|].
  exact (proj1 (proj2 (C8_classify_post_returns Sample.malformed Sample.post_with_image []
                         Hpost Hfit))).
Defined.

(** ** The worker *)

Lemma rebuild_media_dicts attachments :
  Forall is_dict attachments ->
  rebuild_media attachments = Ok (map type_and_url attachments).
Proof.
  induction 1 as [|m rest Hm _ IH]; [reflexivity|].
  destruct m as [| | | | |d]; try contradiction.
  cbn [rebuild_media Py.vget Py.vget_or res_bind map type_and_url]. rewrite IH. reflexivity.
Qed.

Lemma type_and_url_is_dict attachments :
  Forall is_dict attachments -> Forall is_dict (map type_and_url attachments).
Proof.
  induction 1 as [|m rest Hm _ IH]; constructor; [|exact IH].
  destruct m; try contradiction. exact I.
Qed.

Lemma structure_raw_post post attachments :
  Py.get_or post "media_attachments" (VList []) = VList attachments ->
  Forall is_dict attachments ->
  structure post =
    Ok [("created_at", Py.get post "created_at");
        ("content", Py.get post "content");
        ("media", VList (map type_and_url attachments))].
Proof.
  intros Hget Hdicts. unfold structure. rewrite Hget. cbn [Py.iter res_bind].
  rewrite (rebuild_media_dicts attachments Hdicts). reflexivity.
Qed.

Lemma process_post_returns w post :
  raw_post post ->
  (forall structured, structure post = Ok structured -> prompt_representable w structured []) ->
  exists structured classification t,
    structure post = Ok structured /\
    classify_post w structured [] = (Ok classification, t) /\
    classification_result w classification /\
    process_post w post [] =
      (Ok (structured ++ [("classification", classification)])%list, t).
Proof.
  intros (attachments & Hget & Hdicts) Hfit.
  pose proof (structure_raw_post post attachments Hget Hdicts) as Hstructure.
  specialize (Hfit _ Hstructure).
  set (structured := [("created_at", Py.get post "created_at");
                      ("content", Py.get post "content");
                      ("media", VList (map type_and_url attachments))]) in *.
  assert (Hrecord : post_record structured).
  { exists (map type_and_url attachments). split; [reflexivity|].
    apply type_and_url_is_dict. exact Hdicts. }
  destruct (classify_post_returns w structured [] Hrecord Hfit)
    as (classification & t & Hclassify & Hresult).
  do 3 eexists. split; [exact Hstructure|]. split; [exact Hclassify|]. split; [exact Hresult|].
  unfold process_post, bind, lift, ret. rewrite Hstructure, Hclassify. reflexivity.
Qed.

(** ** The pool *)

Lemma length_complete worlds posts futures i :
  length (complete worlds posts futures i) = length futures.
Proof.
  unfold complete. destruct (run_task worlds posts i); [apply length_insert | reflexivity].
Qed.

Lemma length_foldl_complete worlds posts completion :
  forall futures,
    length (foldl (complete worlds posts) futures completion) = length futures.
Proof.
  induction completion as [|j rest IH]; intros futures; [reflexivity|].
  cbn [foldl]. rewrite IH. apply length_complete.
Qed.

Lemma lookup_foldl_complete_other worlds posts completion i :
  i ∉ completion ->
  forall futures : list future,
    foldl (complete worlds posts) futures completion !! i = futures !! i.
Proof.
  induction completion as [|j rest IH]; intros Hnotin futures; [reflexivity|].
  apply not_elem_of_cons in Hnotin as [Hne Hrest].
  cbn [foldl]. rewrite (IH Hrest). unfold complete.
  destruct (run_task worlds posts j); [|reflexivity].
  apply list_lookup_insert_ne. congruence.
Qed.

Lemma lookup_foldl_complete worlds posts completion i post :
  i ∈ completion ->
  posts !! i = Some post ->
  forall futures : list future,
    i < length futures ->
    foldl (complete worlds posts) futures completion !! i =
      Some (Some (enrichment (worlds i) post)).
Proof.
  intros Hin Hpost.
  induction completion as [|j rest IH]; intros futures Hlen.
  - apply elem_of_nil in Hin. contradiction.
  - cbn [foldl]. destruct (decide (i ∈ rest)) as [Hrest|Hrest].
    + apply IH; [exact Hrest|]. rewrite length_complete. exact Hlen.
    + apply elem_of_cons in Hin as [->|Hin]; [|contradiction].
      rewrite (lookup_foldl_complete_other worlds posts rest j Hrest).
      unfold complete, run_task. rewrite Hpost.
      apply list_lookup_insert_eq. exact Hlen.
Qed.

Lemma run_pool_all_finished worlds posts completion :
  (forall i, i < length posts -> i ∈ completion) ->
  run_pool worlds posts completion =
    imap (fun i post => Some (enrichment (worlds i) post)) posts.
Proof.
  intros Hall. apply list_eq. intros i. rewrite list_lookup_imap.
  unfold run_pool. destruct (posts !! i) as [post|] eqn:Hpost; cbn.
  - apply lookup_foldl_complete; [| exact Hpost |].
    + apply Hall. apply lookup_lt_Some in Hpost. exact Hpost.
    + unfold submit_all. rewrite length_map. apply lookup_lt_Some in Hpost. exact Hpost.
  - apply lookup_ge_None. rewrite length_foldl_complete. unfold submit_all.
    rewrite length_map. apply lookup_ge_None in Hpost. exact Hpost.
Qed.

Lemma results_all_returned (futures : list future) (outs : list dict) :
  Forall2 (fun f out => f = Some (Ok out)) futures outs ->
  results futures = Some (Ok outs).
Proof.
  induction 1 as [|f out futures outs Hf _ IH]; [reflexivity|].
  subst f. cbn [results]. rewrite IH. reflexivity.
Qed.

(** C2. Whatever the order in which the tasks finish, once every task has
    finished the pool hands back one enriched post per raw post, and the
    post at index [i] is the enrichment of the raw post at index [i]: its
    time and text are those of the raw post, its media are the rebuilt
    attachments and its classification is what [classify_post] returned for
    it. *)
Theorem C2_one_enriched_post_per_raw_post worlds posts completion :
  Forall raw_post posts ->
  (forall i post structured,
      posts !! i = Some post -> structure post = Ok structured ->
      prompt_representable (worlds i) structured []) ->
  (forall i, i < length posts -> i ∈ completion) ->
  exists enriched,
    structured_posts worlds posts completion = Some (Ok enriched) /\
    length enriched = length posts /\
    forall i post,
      posts !! i = Some post ->
      exists structured classification t,
        structure post = Ok structured /\
        classify_post (worlds i) structured [] = (Ok classification, t) /\
        enrichment (worlds i) post =
          Ok (structured ++ [("classification", classification)])%list /\
        enriched !! i = Some (structured ++ [("classification", classification)])%list.
Proof.
  intros Hraw Hfit Hall.
  assert (Hreturns : forall i post,
             posts !! i = Some post ->
             exists structured classification t,
               structure post = Ok structured /\
               classify_post (worlds i) structured [] = (Ok classification, t) /\
               enrichment (worlds i) post =
                 Ok (structured ++ [("classification", classification)])%list).
  { intros i post Hpost.
    destruct (process_post_returns (worlds i) post) as (structured & cls & t & H1 & H2 & _ & H3).
    - rewrite Forall_forall in Hraw. apply Hraw. apply list_elem_of_lookup. eauto.
    - intros structured. apply Hfit. exact Hpost.
    - exists structured, cls, t. repeat split; try assumption.
      unfold enrichment. rewrite H3. reflexivity. }
  exists (imap (fun i post => returned (enrichment (worlds i) post)) posts).
  split; [|split].
  - unfold structured_posts. rewrite (run_pool_all_finished worlds posts completion Hall).
    apply results_all_returned. apply Forall2_same_length_lookup.
    split; [rewrite !length_imap; reflexivity|].
    intros i f out. rewrite !list_lookup_imap.
    destruct (posts !! i) as [post|] eqn:Hpost; cbn; [|discriminate].
    intros [= <-] [= <-].
    destruct (Hreturns i post Hpost) as (structured & cls & t & _ & _ & ->). reflexivity.
  - apply length_imap.
  - intros i post Hpost.
    destruct (Hreturns i post Hpost) as (structured & cls & t & H1 & H2 & H3).
    exists structured, cls, t. repeat split; try assumption.
    rewrite list_lookup_imap, Hpost. cbn. rewrite H3. reflexivity.
Qed.

Lemma C2_one_enriched_post_per_raw_post_witness :
  exists enriched,
    structured_posts (fun _ => Sample.not_found) Sample.raw_posts [1; 0] = Some (Ok enriched) /\
    length enriched = 2.
Proof.
  assert (Hraw : Forall raw_post Sample.raw_posts).
  { repeat constructor.
    - eexists. split; [reflexivity|]. repeat constructor.
    - exists []. split; [reflexivity|]. constructor. }
  assert (Hfit : forall i post structured,
             Sample.raw_posts !! i = Some post -> structure post = Ok structured ->
             prompt_representable Sample.not_found structured []).
  { intros i post structured Hpost Hstructure text t' Hbuild.
    destruct i as [|[|i]]; cbn in Hpost; [| |discriminate];
      injection Hpost as <-; vm_compute in Hstructure; injection Hstructure as <-;
      vm_compute in Hbuild; injection Hbuild as <- _; vm_compute; reflexivity. }
  assert (Hall : forall i, i < length Sample.raw_posts -> i ∈ [1; 0]).
  { intros i Hi. destruct i as [|[|i]]; [| |cbn in Hi; lia]; repeat constructor. }
  destruct (C2_one_enriched_post_per_raw_post (fun _ => Sample.not_found)
              Sample.raw_posts [1; 0] Hraw Hfit Hall) as (enriched & Hposts & Hlength & _).
  exists enriched. split; [exact Hposts | exact Hlength].
Defined.

(** ** The tiers *)

Lemma select_filter keep p posts :
  Forall (fun post => keep post = Ok (p post)) posts ->
  select keep posts = Ok (List.filter p posts).
Proof.
  induction 1 as [|post posts Hpost _ IH]; [reflexivity|].
  cbn [select List.filter]. rewrite Hpost, IH. cbn [res_bind].
  destruct (p post); reflexivity.
Qed.

Lemma is_tariff_post_relevant post :
  enriched_post post -> is_tariff_post post = Ok (relevant post).
Proof.
  unfold enriched_post, is_tariff_post, relevant.
  destruct (classification_of post) as [| | | | |cls]; try contradiction. intros _.
  cbn [Py.vget Py.vget_or res_bind]. unfold Py.get_or.
  destruct (Py.lookup "tariffs_related" cls) as [[|[]| | | |]|]; reflexivity.
Qed.

Lemma has_tariff_rate_rate_present post :
  enriched_post post -> has_tariff_rate post = Ok (rate_present post).
Proof.
  unfold enriched_post, has_tariff_rate, rate_present.
  destruct (classification_of post) as [| | | | |cls]; try contradiction. intros _.
  cbn [Py.vget Py.vget_or res_bind]. unfold Py.get_or.
  destruct (Py.lookup "tariff_rate" cls) as [[| | | | |]|]; reflexivity.
Qed.

Lemma tariff_posts_filter posts :
  Forall enriched_post posts -> tariff_posts posts = Ok (List.filter relevant posts).
Proof.
  intros Hposts. apply select_filter.
  eapply Forall_impl; [exact Hposts|]. exact is_tariff_post_relevant.
Qed.

Lemma official_tariff_posts_filter posts :
  Forall enriched_post posts ->
  official_tariff_posts posts = Ok (List.filter rate_present posts).
Proof.
  intros Hposts. apply select_filter.
  eapply Forall_impl; [exact Hposts|]. exact has_tariff_rate_rate_present.
Qed.

Lemma filter_sublist {A} (p : A -> bool) (l : list A) : sublist (List.filter p l) l.
Proof.
  induction l as [|x l IH]; cbn [List.filter]; [constructor|].
  destruct (p x); [apply sublist_skip | apply sublist_cons]; exact IH.
Qed.

Lemma filter_filter {A} (p : A -> bool) (l : list A) :
  List.filter p (List.filter p l) = List.filter p l.
Proof.
  induction l as [|x l IH]; cbn [List.filter]; [reflexivity|].
  destruct (p x) eqn:Hx; [|exact IH]. cbn [List.filter]. rewrite Hx, IH. reflexivity.
Qed.

Lemma Forall_filter {A} (P : A -> Prop) (p : A -> bool) (l : list A) :
  Forall P l -> Forall P (List.filter p l).
Proof.
  induction 1 as [|x l Hx _ IH]; cbn [List.filter]; [constructor|].
  destruct (p x); [constructor|]; assumption.
Qed.

(** C3. On a completed sequence of enriched posts, the tier of the relevant
    posts is the sequence of the posts whose [tariffs_related] is the boolean
    [true], and the tier of the posts with a rate is the sequence of the
    posts whose [tariff_rate] is present and neither [None] nor empty, both
    in the original order; a post that carries an error marker is in
    neither. *)
Theorem C3_tiers_are_the_filters posts :
  Forall enriched_post posts ->
  tariff_posts posts = Ok (List.filter relevant posts) /\
  official_tariff_posts posts = Ok (List.filter rate_present posts) /\
  (forall post e,
      classification_of post = error_result e ->
      relevant post = false /\ rate_present post = false).
Proof.
  intros Hposts. split; [apply tariff_posts_filter; exact Hposts|].
  split; [apply official_tariff_posts_filter; exact Hposts|].
  intros post e Herror. unfold relevant, rate_present. rewrite Herror. split; reflexivity.
Qed.

Lemma sample_enriched : Forall enriched_post Sample.enriched.
Proof. repeat constructor. Qed.

Lemma C3_tiers_are_the_filters_witness :
  tariff_posts Sample.enriched = Ok (firstn 1 Sample.enriched) /\
  official_tariff_posts Sample.enriched = Ok (firstn 1 Sample.enriched).
Proof.
  destruct (C3_tiers_are_the_filters Sample.enriched sample_enriched) as (H1 & H2 & _).
  split; [exact H1 | exact H2].
Defined.

(** C4. Both tiers are subsequences of the sequence of all enriched posts,
    and selecting a tier again from itself gives the tier back. *)
Theorem C4_tiers_are_idempotent_subsequences posts :
  Forall enriched_post posts ->
  exists relevant_tier rate_tier,
    tariff_posts posts = Ok relevant_tier /\
    official_tariff_posts posts = Ok rate_tier /\
    sublist relevant_tier posts /\
    sublist rate_tier posts /\
    tariff_posts relevant_tier = Ok relevant_tier /\
    official_tariff_posts rate_tier = Ok rate_tier.
Proof.
  intros Hposts.
  exists (List.filter relevant posts), (List.filter rate_present posts).
  split; [apply tariff_posts_filter; exact Hposts|].
  split; [apply official_tariff_posts_filter; exact Hposts|].
  split; [apply filter_sublist|]. split; [apply filter_sublist|]. split.
  - rewrite tariff_posts_filter by (apply Forall_filter; exact Hposts).
    rewrite filter_filter. reflexivity.
  - rewrite official_tariff_posts_filter by (apply Forall_filter; exact Hposts).
    rewrite filter_filter. reflexivity.
Qed.

Lemma C4_tiers_are_idempotent_subsequences_witness :
  exists relevant_tier rate_tier,
    tariff_posts Sample.enriched = Ok relevant_tier /\
    official_tariff_posts Sample.enriched = Ok rate_tier /\
    sublist relevant_tier Sample.enriched /\
    sublist rate_tier Sample.enriched /\
    tariff_posts relevant_tier = Ok relevant_tier /\
    official_tariff_posts rate_tier = Ok rate_tier.
Proof.
  exact (C4_tiers_are_idempotent_subsequences Sample.enriched sample_enriched).
Defined.

(** ** The rows of the tables *)

Lemma strings_of_strings names position :
  Csv.strings_of position (map VStr names) = Ok names.
Proof.
  revert position. induction names as [|name names IH]; intros position; [reflexivity|].
  cbn [map Csv.strings_of]. rewrite IH. reflexivity.
Qed.

Lemma products_field_names cls names :
  Py.lookup "products" cls = Some (VList (map VStr names)) ->
  Csv.products_field (VDict cls) = Ok (VStr (Str.join ", " names)).
Proof.
  intros Hproducts. unfold Csv.products_field, Py.vget, Py.vget_or, Py.get_or.
  rewrite Hproducts. cbn [res_bind].
  destruct names as [|name names]; [reflexivity|].
  cbn [Py.truthy map]. unfold Csv.join. cbn [Py.iter res_bind].
  change (VStr name :: map VStr names) with (map VStr (name :: names)).
  rewrite strings_of_strings. reflexivity.
Qed.

Lemma products_field_absent cls :
  Py.truthy (Py.get cls "products") = false ->
  Csv.products_field (VDict cls) = Ok (VStr EmptyString).
Proof.
  intros Hfalsy. unfold Csv.products_field, Py.vget, Py.vget_or. cbn [res_bind].
  fold (Py.get cls "products"). rewrite Hfalsy. reflexivity.
Qed.

Lemma row_of_products post cls products :
  classification_of post = VDict cls ->
  Csv.products_field (VDict cls) = Ok (VStr products) ->
  Csv.row post =
    Ok [Csv.field (Py.get_or post "created_at" (VStr EmptyString));
        Csv.field (Py.get_or post "content" (VStr EmptyString));
        Json.dumps (Py.get_or post "media" (VList []));
        Csv.field (Py.get_or cls "tariffs_related" (VStr EmptyString));
        Csv.field (Py.get_or cls "affected_country" (VStr EmptyString));
        Csv.field (Py.get_or cls "affected_region" (VStr EmptyString));
        products;
        Csv.field (Py.get_or cls "published_time" (VStr EmptyString));
        Csv.field (Py.get_or cls "tariff_rate" (VStr EmptyString));
        Csv.field (Py.get_or cls "classification" (VStr EmptyString));
        Csv.field (Py.get_or cls "media_analysis" (VStr EmptyString))].
Proof.
  intros Hcls Hproducts. unfold Csv.row, Csv.row_dict.
  fold (classification_of post). rewrite Hcls.
  cbn [Py.vget_or res_bind]. rewrite Hproducts. reflexivity.
Qed.

(** C5. The table starts with the eleven column names in their fixed
    order, and the row of an enriched post gives the cells in that order,
    the media as JSON text.  A list of product names is joined with a comma
    and a space into one cell, so that steel and aluminum give
    [steel, aluminum]; a post that carries an error marker has the empty
    string in each of the eight classification columns, and its row is
    written without an exception. *)
Theorem C5_csv_rows :
  (forall posts table, Csv.write_csv posts = Ok table -> head table = Some Csv.fieldnames) /\
  Csv.fieldnames =
    ["created_at"; "content"; "media"; "tariffs_related"; "affected_country";
     "affected_region"; "products"; "published_time"; "tariff_rate"; "classification";
     "media_analysis"] /\
  (forall post cls names,
      classification_of post = VDict cls ->
      Py.lookup "products" cls = Some (VList (map VStr names)) ->
      Csv.row post =
        Ok [Csv.field (Py.get_or post "created_at" (VStr EmptyString));
            Csv.field (Py.get_or post "content" (VStr EmptyString));
            Json.dumps (Py.get_or post "media" (VList []));
            Csv.field (Py.get_or cls "tariffs_related" (VStr EmptyString));
            Csv.field (Py.get_or cls "affected_country" (VStr EmptyString));
            Csv.field (Py.get_or cls "affected_region" (VStr EmptyString));
            Str.join ", " names;
            Csv.field (Py.get_or cls "published_time" (VStr EmptyString));
            Csv.field (Py.get_or cls "tariff_rate" (VStr EmptyString));
            Csv.field (Py.get_or cls "classification" (VStr EmptyString));
            Csv.field (Py.get_or cls "media_analysis" (VStr EmptyString))]) /\
  Str.join ", " ["steel"; "aluminum"] = "steel, aluminum" /\
  (forall post e,
      classification_of post = error_result e ->
      Csv.row post =
        Ok [Csv.field (Py.get_or post "created_at" (VStr EmptyString));
            Csv.field (Py.get_or post "content" (VStr EmptyString));
            Json.dumps (Py.get_or post "media" (VList []));
            EmptyString; EmptyString; EmptyString; EmptyString;
            EmptyString; EmptyString; EmptyString; EmptyString]).
Proof.
  split.
  { intros posts table. unfold Csv.write_csv.
    destruct (Csv.rows posts); cbn [res_bind]; [|discriminate].
    intros [= <-]. reflexivity. }
  split; [reflexivity|]. split.
  { intros post cls names Hcls Hproducts.
    apply row_of_products; [exact Hcls|]. apply products_field_names. exact Hproducts. }
  split; [reflexivity|].
  intros post e Herror.
  rewrite (row_of_products post [("error", VStr (exn_str e))] EmptyString Herror);
    [reflexivity|].
  apply products_field_absent. reflexivity.
Qed.

Lemma C5_csv_rows_witness :
  Csv.write_csv Sample.enriched =
    Ok [Csv.fieldnames;
        ["2025-04-02T20:00:00Z"; "25% tariffs on steel"; "[]"; "True"; "China";
         EmptyString; "steel, aluminum"; "2025-04-02T20:00:00Z"; "25%"; "official";
         EmptyString];
        ["2025-04-03T11:00:00Z"; "Good morning"; "[]"; EmptyString; EmptyString;
         EmptyString; EmptyString; EmptyString; EmptyString; EmptyString; EmptyString]].
Proof.
  destruct C5_csv_rows as (_ & _ & Hrow & _ & Herror).
  unfold Csv.write_csv, Sample.enriched. cbn [Csv.rows].
  rewrite (Hrow Sample.steel_post Sample.steel ["steel"; "aluminum"] eq_refl eq_refl).
  rewrite (Herror Sample.failed_post (Exn "APIConnectionError" "Connection error.") eq_refl).
  reflexivity.
Defined.

(** ** The media of a structured post *)

Lemma dumps_type_and_url ty url :
  Json.dumps (VDict [("type", ty); ("url", url)]) =
    "{" ++ Str.quoted "type" ++ ": " ++ Json.dumps ty ++ ", "
        ++ Str.quoted "url" ++ ": " ++ Json.dumps url ++ "}".
Proof.
  cbn [Json.dumps map fst snd]. unfold Str.join. cbn [String.concat].
  change (Json.encode_str "type") with (Str.quoted "type").
  change (Json.encode_str "url") with (Str.quoted "url").
  rewrite !append_assoc. reflexivity.
Qed.

(** C10. The worker rebuilds every attachment as a dictionary of its type
    and its address alone.  The media list of the structured post, which is
    the list that the prompt renders as JSON, therefore has entries of
    exactly these two keys; [detail] is looked up in vain, and an image that
    downloads with status 200 is inlined with the detail [low]. *)
Theorem C10_rebuilt_media_has_no_detail w post attachments :
  Py.get_or post "media_attachments" (VList []) = VList attachments ->
  Forall is_dict attachments ->
  exists structured media,
    structure post = Ok structured /\
    Py.get structured "media" = VList media /\
    media = map type_and_url attachments /\
    Forall (fun m =>
      exists ty url,
        m = VDict [("type", ty); ("url", url)] /\
        Py.vget_or m "detail" (VStr "low") = Ok (VStr "low") /\
        Json.dumps m =
          "{" ++ Str.quoted "type" ++ ": " ++ Json.dumps ty ++ ", "
              ++ Str.quoted "url" ++ ": " ++ Json.dumps url ++ "}" /\
        forall t resp,
          Py.eq_str ty "image" = true ->
          requests_get w t url = GetReturns resp ->
          status_code resp = 200%Z ->
          media_fragment w m t =
            (Ok (inlined "low" (Base64.b64encode (content resp))),
             (t ++ [CallGet url])%list)) media.
Proof.
  intros Hget Hdicts. do 2 eexists.
  split; [exact (structure_raw_post post attachments Hget Hdicts)|].
  split; [reflexivity|]. split; [reflexivity|].
  clear Hget. induction Hdicts as [|m rest Hm _ IH]; cbn [map]; constructor; [|exact IH].
  destruct m as [| | | | |d]; try contradiction. cbn [type_and_url].
  exists (Py.get d "type"), (Py.get d "url").
  split; [reflexivity|]. split; [reflexivity|]. split; [apply dumps_type_and_url|].
  intros t resp Hty Hresp Hstatus.
  rewrite (media_fragment_status w [("type", Py.get d "type"); ("url", Py.get d "url")]
             (Py.get d "url") resp t Hty eq_refl Hresp).
  rewrite Hstatus. reflexivity.
Qed.

Lemma C10_rebuilt_media_has_no_detail_witness :
  exists structured media,
    structure Sample.raw_post_with_image = Ok structured /\
    Py.get structured "media" = VList media /\
    media = [VDict Sample.image] /\
    media_fragment Sample.online (VDict Sample.image) [] =
      (Ok (inlined "low" "TWFu"), [CallGet (VStr Sample.image_url)]).
Proof.
  assert (Hdicts : Forall is_dict [Sample.attachment]) by (repeat constructor).
  destruct (C10_rebuilt_media_has_no_detail Sample.online Sample.raw_post_with_image
              [Sample.attachment] eq_refl Hdicts)
    as (structured & media & Hstructure & Hmedia & Hrebuilt & Hentries).
  exists structured, media. split; [exact Hstructure|]. split; [exact Hmedia|].
  split; [exact Hrebuilt|].
  subst media. apply Forall_cons in Hentries as [(ty & url & Heq & _ & _ & Hinlined) _].
  injection Heq as <- <-.
  exact (Hinlined [] (Response 200 [Byte.x4d; Byte.x61; Byte.x6e]) eq_refl eq_refl eq_refl).
Defined.

(** * Further properties of [main.py] *)

(** ** The media loop, case by case *)

(** X1. A media item whose type is not the string [image] (a video, or an
    item without a type) is described by its JSON text; nothing is
    downloaded for it, and the loop goes on with the next item. *)
Theorem X1_other_media_is_dumped w d t :
  Py.eq_str (Py.get d "type") "image" = false ->
  let fragment := Str.nl ++ "Non-image media: " ++ Json.dumps (VDict d) in
  media_fragment w (VDict d) t = (Ok fragment, t) /\
  (forall rest acc,
      media_loop w (VDict d :: rest) acc t = media_loop w rest (acc ++ fragment) t).
Proof.
  intros Hty fragment.
  assert (Hfragment : media_fragment w (VDict d) t = (Ok fragment, t)).
  { apply media_fragment_not_image; [exact I|].
    intros ty Hget. cbn in Hget. injection Hget as <-. exact Hty. }
  split; [exact Hfragment|].
  intros rest acc. cbn [media_loop]. unfold bind. rewrite Hfragment. reflexivity.
Qed.

Lemma X1_other_media_is_dumped_witness :
  media_fragment Sample.online (VDict [("url", VStr "https://example.com/clip.mp4")]) [] =
    (Ok (Str.nl ++ "Non-image media: {" ++ Str.quoted "url" ++ ": "
           ++ Str.quoted "https://example.com/clip.mp4" ++ "}"), []).
Proof.
  exact (proj1 (X1_other_media_is_dumped Sample.online
                  [("url", VStr "https://example.com/clip.mp4")] [] eq_refl)).
Defined.

(** X2. An image without a [url] key is not downloaded: the [KeyError] of
    [m["url"]] is caught, and the fragment names the address [None] with the
    words [(failed to fetch image)]. *)
Theorem X2_image_without_url w d t :
  Py.eq_str (Py.get d "type") "image" = true ->
  Py.lookup "url" d = None ->
  let fragment := Str.nl ++ "Image URL: None (failed to fetch image)" in
  media_fragment w (VDict d) t = (Ok fragment, t) /\
  (forall rest acc,
      media_loop w (VDict d :: rest) acc t = media_loop w rest (acc ++ fragment) t).
Proof.
  intros Hty Hurl fragment.
  pose proof (media_fragment_no_url w d t Hty Hurl) as Hfragment.
  split; [exact Hfragment|].
  intros rest acc. cbn [media_loop]. unfold bind. rewrite Hfragment. reflexivity.
Qed.

Lemma X2_image_without_url_witness :
  media_fragment Sample.online (VDict [("type", VStr "image")]) [] =
    (Ok (Str.nl ++ "Image URL: None (failed to fetch image)"), []).
Proof.
  exact (proj1 (X2_image_without_url Sample.online [("type", VStr "image")] []
                  eq_refl eq_refl)).
Defined.

(** X3. An image that downloads with status 200 is inlined under the detail
    that the media item itself carries, and as JPEG data whatever its
    address says. *)
Theorem X3_detail_of_the_item_is_used w d url detail resp t :
  Py.eq_str (Py.get d "type") "image" = true ->
  Py.lookup "url" d = Some url ->
  Py.lookup "detail" d = Some detail ->
  requests_get w t url = GetReturns resp ->
  status_code resp = 200%Z ->
  media_fragment w (VDict d) t =
    (Ok (Str.nl ++ "Image (" ++ Repr.str detail ++ "): data:image/jpeg;base64,"
           ++ Base64.b64encode (content resp)),
     (t ++ [CallGet url])%list).
Proof.
  intros Hty Hurl Hdetail Hget Hstatus.
  rewrite (media_fragment_status w d url resp t Hty Hurl Hget), Hstatus.
  unfold Py.get_or. rewrite Hdetail. reflexivity.
Qed.

Lemma X3_detail_of_the_item_is_used_witness :
  let item := [("type", VStr "image"); ("url", VStr "https://example.com/map.png");
               ("detail", VStr "high")] in
  media_fragment Sample.online (VDict item) [] =
    (Ok (Str.nl ++ "Image (high): data:image/jpeg;base64,TWFu"),
     [CallGet (VStr "https://example.com/map.png")]).
Proof.
  intros item.
  exact (X3_detail_of_the_item_is_used Sample.online item
           (VStr "https://example.com/map.png") (VStr "high")
           (Response 200 [Byte.x4d; Byte.x61; Byte.x6e]) []
           eq_refl eq_refl eq_refl eq_refl eq_refl).
Defined.

(** ** The calls of [classify_post] *)

Lemma media_fragment_calls w m t :
  exists gets,
    snd (media_fragment w m t) = (t ++ gets)%list /\
    Forall is_get gets /\ length gets <= 1.
Proof.
  assert (Hnone : exists gets, t = (t ++ gets)%list /\ Forall is_get gets /\ length gets <= 1).
  { exists []. rewrite app_nil_r. repeat split; [constructor | cbn; lia]. }
  destruct m as [| | | | |d]; try exact Hnone.
  destruct (Py.eq_str (Py.get d "type") "image") eqn:Hty.
  - destruct (Py.lookup "url" d) as [url|] eqn:Hurl.
    + assert (Hone : exists gets, (t ++ [CallGet url])%list = (t ++ gets)%list /\
                       Forall is_get gets /\ length gets <= 1).
      { exists [CallGet url]. repeat split; [repeat constructor | cbn; lia]. }
      destruct (requests_get w t url) as [resp|e] eqn:Hget.
      * rewrite (media_fragment_status w d url resp t Hty Hurl Hget). exact Hone.
      * rewrite (media_fragment_raises w d url e t Hty Hurl Hget). exact Hone.
    + rewrite (media_fragment_no_url w d t Hty Hurl). exact Hnone.
  - rewrite media_fragment_not_image; [exact Hnone | exact I |].
    intros ty Hget. cbn in Hget. injection Hget as <-. exact Hty.
Qed.

Lemma media_loop_calls w items :
  forall acc t,
    exists gets,
      snd (media_loop w items acc t) = (t ++ gets)%list /\
      Forall is_get gets /\ length gets <= length items.
Proof.
  induction items as [|m items IH]; intros acc t; cbn [media_loop].
  - exists []. rewrite app_nil_r. repeat split; [constructor | cbn; lia].
  - unfold bind.
    destruct (media_fragment_calls w m t) as (g1 & Ht1 & Hg1 & Hl1).
    destruct (media_fragment w m t) as [[fragment|e] t1]; cbn [snd] in Ht1; subst t1.
    + destruct (IH (acc ++ fragment) (t ++ g1)%list) as (g2 & Ht2 & Hg2 & Hl2).
      exists (g1 ++ g2)%list. rewrite Ht2, app_assoc. split; [reflexivity|].
      split; [apply Forall_app; split; assumption|].
      rewrite length_app. cbn [length]. lia.
    + exists g1. cbn [snd]. repeat split; [assumption | cbn [length]; lia].
Qed.

Lemma classify_prompt_calls w text t :
  exists creates,
    snd (classify_prompt w text t) = (t ++ creates)%list /\
    Forall is_create creates /\ 1 <= length creates <= 2.
Proof.
  unfold classify_prompt, try_except. rewrite request_and_parse_trace.
  set (call1 := CallCreate (request_for text)).
  assert (Hone : exists creates, (t ++ [call1])%list = (t ++ creates)%list /\
                   Forall is_create creates /\ 1 <= length creates <= 2).
  { exists [call1]. repeat split; [repeat constructor | cbn; lia | cbn; lia]. }
  destruct (attempt w text t) as [result|e]; [exact Hone|].
  destruct (too_long e); [|exact Hone].
  unfold bind, lift. destruct (shorten text) as [shortened|e']; [|exact Hone].
  rewrite request_and_parse_trace.
  exists [call1; CallCreate (request_for shortened)].
  split.
  - destruct (attempt w shortened (t ++ [call1])); cbn [snd];
      rewrite <- app_assoc; reflexivity.
  - repeat split; [repeat constructor | cbn; lia | cbn; lia].
Qed.

(** X4. Whatever it returns or raises, [classify_post] only adds calls to
    the trace: first the downloads, at most one for each media item, then
    the requests to the classification service, at most two, and none
    unless all the media have been handled. *)
Theorem X4_calls_of_classify_post w post t :
  exists gets creates,
    snd (classify_post w post t) = (t ++ gets ++ creates)%list /\
    Forall is_get gets /\
    Forall is_create creates /\
    length creates <= 2 /\
    (forall items,
        Py.iter (Py.get_or post "media" (VList [])) = Ok items ->
        length gets <= length items) /\
    (forall e, fst (build_prompt w post t) = Raise e -> creates = []).
Proof.
  unfold classify_post, build_prompt, bind, lift, ret.
  destruct (Py.iter (Py.get_or post "media" (VList []))) as [items|e0]; cbn [fst snd].
  - destruct (media_loop_calls w items EmptyString t) as (gets & Ht1 & Hgets & Hlen).
    destruct (media_loop w items EmptyString t) as [[enhanced|e] t1];
      cbn [fst snd] in *; subst t1.
    + destruct (classify_prompt_calls w (prompt_text post enhanced) (t ++ gets)%list)
        as (creates & Ht2 & Hcreates & Hlen2).
      exists gets, creates. rewrite Ht2, app_assoc.
      repeat split; try assumption; try lia.
      * intros items' [= <-]. exact Hlen.
      * intros e. discriminate.
    + exists gets, []. rewrite app_nil_r.
      repeat split; try assumption; try constructor.
      * cbn; lia.
      * intros items' [= <-]. exact Hlen.
  - exists [], []. rewrite !app_nil_r.
    repeat split; try constructor.
    + cbn; lia.
    + intros items. discriminate.
Qed.

Lemma X4_calls_of_classify_post_witness :
  exists gets creates,
    snd (classify_post Sample.online Sample.post_with_image []) = (gets ++ creates)%list /\
    length gets <= 1 /\ length creates <= 2.
Proof.
  destruct (X4_calls_of_classify_post Sample.online Sample.post_with_image [])
    as (gets & creates & Htrace & _ & _ & Hcreates & Hgets & _).
  exists gets, creates. split; [exact Htrace|].
  split; [exact (Hgets [VDict Sample.image] eq_refl) | exact Hcreates].
Defined.

Lemma media_loop_not_dict w items :
  Exists (fun m => ~ is_dict m) items ->
  forall acc t,
    exists e t',
      media_loop w items acc t = (Raise e, t') /\ exn_type e = "AttributeError".
Proof.
  induction items as [|m items IH]; intros Hexists acc t.
  - apply Exists_nil in Hexists. contradiction.
  - cbn [media_loop]. unfold bind.
    destruct m as [| | | | |d];
      try (unfold media_fragment, bind, lift; cbn; do 2 eexists; split; reflexivity).
    destruct (media_fragment_returns w (VDict d) t I) as (fragment & t1 & ->).
    apply IH. apply Exists_cons in Hexists as [Hhead|Htail]; [|exact Htail].
    exfalso. apply Hhead. exact I.
Qed.

(** X5. The [m.get] that opens the loop is outside every [try]: a media list
    with an entry that is not a dictionary makes [classify_post] raise an
    [AttributeError], after the downloads of the entries before it and
    without any request to the classification service. *)
Theorem X5_media_entry_that_is_no_dict w post items t :
  Py.get_or post "media" (VList []) = VList items ->
  Exists (fun m => ~ is_dict m) items ->
  exists e gets,
    classify_post w post t = (Raise e, (t ++ gets)%list) /\
    exn_type e = "AttributeError" /\
    Forall is_get gets.
Proof.
  intros Hmedia Hexists.
  unfold classify_post, build_prompt, bind, lift, ret. rewrite Hmedia. cbn [Py.iter].
  destruct (media_loop_not_dict w items Hexists EmptyString t) as (e & t' & Hloop & Htype).
  destruct (media_loop_calls w items EmptyString t) as (gets & Htrace & Hgets & _).
  rewrite Hloop in Htrace |- *. cbn [snd] in Htrace. subst t'.
  exists e, gets. repeat split; assumption.
Qed.

Lemma X5_media_entry_that_is_no_dict_witness :
  let post := [("content", VStr "See the chart");
               ("media", VList [VStr "https://example.com/chart.jpg"])] in
  exists e gets,
    classify_post Sample.online post [] = (Raise e, gets) /\
    exn_type e = "AttributeError".
Proof.
  intros post.
  assert (Hexists : Exists (fun m => ~ is_dict m) [VStr "https://example.com/chart.jpg"]).
  { constructor. intros H. exact H. }
  destruct (X5_media_entry_that_is_no_dict Sample.online post _ [] eq_refl Hexists)
    as (e & gets & Hraise & Htype & _).
  exists e, gets. split; [exact Hraise | exact Htype].
Defined.

(** ** The test for an oversized input *)

Lemma lower_app a b : Str.lower (a ++ b) = Str.lower a ++ Str.lower b.
Proof.
  induction a as [|c a IH]; [reflexivity|].
  change (String (Str.lower_char c) (Str.lower (a ++ b)) =
          String (Str.lower_char c) (Str.lower a ++ Str.lower b)).
  rewrite IH. reflexivity.
Qed.

Lemma prefix_app s b : String.prefix s (s ++ b) = true.
Proof.
  induction s as [|c s IH]; [destruct b; reflexivity|].
  change (String.prefix (String c s) (String c (s ++ b)) = true).
  cbn [String.prefix]. destruct (ascii_dec c c); [exact IH | congruence].
Qed.

Lemma contains_app sub a b : Str.contains sub (a ++ sub ++ b) = true.
Proof.
  induction a as [|c a IH].
  - change (Str.contains sub (sub ++ b) = true).
    destruct (sub ++ b) eqn:E; cbn [Str.contains]; rewrite <- E, prefix_app; reflexivity.
  - change (Str.contains sub (String c (a ++ sub ++ b)) = true).
    cbn [Str.contains]. rewrite IH. apply orb_true_r.
Qed.

(** X6. The test for an oversized input looks for the words [too long]
    anywhere in the message of the exception and in any mix of upper and
    lower case. *)
Theorem X6_too_long_in_any_case ty before words after :
  Str.lower words = "too long" ->
  too_long (Exn ty (before ++ words ++ after)) = true.
Proof.
  intros Hwords. unfold too_long. cbn [exn_str].
  rewrite !lower_app, Hwords. apply contains_app.
Qed.

Lemma X6_too_long_in_any_case_witness :
  too_long (Exn "BadRequestError" "Request TOO Long: 200000 tokens") = true.
Proof.
  exact (X6_too_long_in_any_case "BadRequestError" "Request " "TOO Long" ": 200000 tokens"
           eq_refl).
Defined.

(** ** The tables and the files *)

Lemma length_writerow rowdict r : Csv.writerow rowdict = Ok r -> length r = 11.
Proof.
  unfold Csv.writerow.
  destruct (List.filter _ (Py.keys rowdict)); [|discriminate].
  intros [= <-]. reflexivity.
Qed.

Lemma rows_inv post rest rs :
  Csv.rows (post :: rest) = Ok rs ->
  exists r rs', Csv.row post = Ok r /\ Csv.rows rest = Ok rs' /\ rs = r :: rs'.
Proof.
  cbn [Csv.rows]. destruct (Csv.row post) as [r|e]; cbn [res_bind]; [|discriminate].
  destruct (Csv.rows rest) as [rs'|e]; cbn [res_bind]; [|discriminate].
  intros [= <-]. eauto.
Qed.

Lemma write_csv_inv posts table :
  Csv.write_csv posts = Ok table ->
  exists rs, Csv.rows posts = Ok rs /\ table = Csv.fieldnames :: rs.
Proof.
  unfold Csv.write_csv. destruct (Csv.rows posts) as [rs|e]; cbn [res_bind]; [|discriminate].
  intros [= <-]. eauto.
Qed.

Lemma rows_shape posts :
  forall rs,
    Csv.rows posts = Ok rs ->
    length rs = length posts /\ Forall (fun r => length r = 11) rs.
Proof.
  induction posts as [|post rest IH]; intros rs Hrows.
  - injection Hrows as <-. split; [reflexivity | constructor].
  - destruct (rows_inv post rest rs Hrows) as (r & rs' & Hrow & Hrest & ->).
    destruct (IH rs' Hrest) as [Hlen Hall]. split; [cbn; lia|].
    constructor; [|exact Hall].
    unfold Csv.row in Hrow. destruct (Csv.row_dict post); cbn [res_bind] in Hrow;
      [|discriminate].
    exact (length_writerow _ _ Hrow).
Qed.

(** X7. A table that [write_csv] writes has one line for the column names
    and one for each post, and every line has as many cells as there are
    columns. *)
Theorem X7_shape_of_the_table posts table :
  Csv.write_csv posts = Ok table ->
  length table = S (length posts) /\
  Forall (fun r => length r = length Csv.fieldnames) table.
Proof.
  intros Hwrite. destruct (write_csv_inv posts table Hwrite) as (rs & Hrows & ->).
  destruct (rows_shape posts rs Hrows) as [Hlen Hall].
  split; [cbn; lia|]. constructor; [reflexivity | exact Hall].
Qed.

Lemma X7_shape_of_the_table_witness :
  exists table,
    Csv.write_csv Sample.enriched = Ok table /\
    length table = 3 /\ Forall (fun r => length r = 11) table.
Proof.
  eexists. split; [reflexivity|].
  exact (X7_shape_of_the_table Sample.enriched _ eq_refl).
Defined.

Lemma strings_of_not_str items :
  Exists (fun v => ~ is_str v) items ->
  forall position,
    exists e, Csv.strings_of position items = Raise e /\ exn_type e = "TypeError".
Proof.
  induction items as [|v items IH]; intros Hexists position.
  - apply Exists_nil in Hexists. contradiction.
  - destruct v as [| | |s| |]; cbn [Csv.strings_of]; try (eexists; split; reflexivity).
    apply Exists_cons in Hexists as [Hhead|Htail]; [exfalso; apply Hhead; exact I|].
    destruct (IH Htail (S position)) as (e & -> & Htype). cbn [res_bind]. eauto.
Qed.

Lemma rows_raise post posts e :
  post ∈ posts -> Csv.row post = Raise e -> exists e', Csv.rows posts = Raise e'.
Proof.
  intros Hin Hrow. induction posts as [|p rest IH].
  - apply elem_of_nil in Hin. contradiction.
  - cbn [Csv.rows]. destruct (Csv.row p) as [r|e1] eqn:Hp; cbn [res_bind]; [|eauto].
    apply elem_of_cons in Hin as [->|Hin]; [congruence|].
    destruct (IH Hin) as [e' ->]. cbn [res_bind]. eauto.
Qed.

Lemma write_csv_raise post posts e :
  post ∈ posts -> Csv.row post = Raise e -> exists e', Csv.write_csv posts = Raise e'.
Proof.
  intros Hin Hrow. unfold Csv.write_csv.
  destruct (rows_raise post posts e Hin Hrow) as [e' ->]. cbn [res_bind]. eauto.
Qed.

(** X8. A list of products with an entry that is not a string cannot be
    joined: the row raises a [TypeError], and so does the writing of every
    table that holds the post. *)
Theorem X8_products_that_are_no_strings post cls items :
  classification_of post = VDict cls ->
  Py.lookup "products" cls = Some (VList items) ->
  Exists (fun v => ~ is_str v) items ->
  (exists e, Csv.row post = Raise e /\ exn_type e = "TypeError") /\
  (forall posts, post ∈ posts -> exists e, Csv.write_csv posts = Raise e).
Proof.
  intros Hcls Hproducts Hexists.
  assert (Hrow : exists e, Csv.row post = Raise e /\ exn_type e = "TypeError").
  { unfold Csv.row, Csv.row_dict. fold (classification_of post). rewrite Hcls.
    cbn [Py.vget_or res_bind].
    unfold Csv.products_field, Py.vget, Py.vget_or, Py.get_or. rewrite Hproducts.
    cbn [res_bind].
    destruct items as [|v items]; [apply Exists_nil in Hexists; contradiction|].
    cbn [Py.truthy]. unfold Csv.join. cbn [Py.iter res_bind].
    destruct (strings_of_not_str (v :: items) Hexists 0) as (e & -> & Htype).
    cbn [res_bind]. eauto. }
  split; [exact Hrow|].
  intros posts Hin. destruct Hrow as (e & Hrow & _).
  exact (write_csv_raise post posts e Hin Hrow).
Qed.

Lemma X8_products_that_are_no_strings_witness :
  let post := [("content", VStr "Tariffs");
               ("classification", VDict [("products", VList [VStr "steel"; VInt 25])])] in
  exists e, Csv.write_csv [Sample.steel_post; post] = Raise e.
Proof.
  intros post.
  assert (Hexists : Exists (fun v => ~ is_str v) [VStr "steel"; VInt 25]).
  { apply Exists_cons_tl. constructor. intros H. exact H. }
  destruct (X8_products_that_are_no_strings post _ _ eq_refl eq_refl Hexists) as [_ Hall].
  apply Hall. repeat constructor.
Defined.

Lemma vget_or_not_dict v k dflt :
  ~ is_dict v ->
  exists e, Py.vget_or v k dflt = Raise e /\ exn_type e = "AttributeError".
Proof.
  destruct v; cbn; intros H; try (eexists; split; reflexivity).
  exfalso. apply H. exact I.
Qed.

Lemma select_raise (keep : dict -> res bool) post posts :
  post ∈ posts ->
  (exists e, keep post = Raise e) ->
  (forall p e, keep p = Raise e -> exn_type e = "AttributeError") ->
  exists e, select keep posts = Raise e /\ exn_type e = "AttributeError".
Proof.
  intros Hin [e0 Hpost] Honly. induction posts as [|p rest IH].
  - apply elem_of_nil in Hin. contradiction.
  - cbn [select]. destruct (keep p) as [kept|e1] eqn:Hp; cbn [res_bind].
    + apply elem_of_cons in Hin as [->|Hin]; [congruence|].
      destruct (IH Hin) as (e & -> & Htype). cbn [res_bind]. eauto.
    + exists e1. split; [reflexivity|]. exact (Honly p e1 Hp).
Qed.

Lemma is_tariff_post_raise p e : is_tariff_post p = Raise e -> exn_type e = "AttributeError".
Proof.
  unfold is_tariff_post, Py.vget, Py.vget_or.
  destruct (classification_of p); cbn; intros [= <-]; reflexivity.
Qed.

Lemma has_tariff_rate_raise p e : has_tariff_rate p = Raise e -> exn_type e = "AttributeError".
Proof.
  unfold has_tariff_rate, Py.vget, Py.vget_or.
  destruct (classification_of p); cbn; intros [= <-]; reflexivity.
Qed.

(** X9. A post whose classification is not a dictionary (a list, a string,
    a number) makes both tier selections raise an [AttributeError], and
    makes the writing of every table that holds it raise as well. *)
Theorem X9_classification_that_is_no_dict post posts :
  ~ is_dict (classification_of post) ->
  post ∈ posts ->
  (exists e, tariff_posts posts = Raise e /\ exn_type e = "AttributeError") /\
  (exists e, official_tariff_posts posts = Raise e /\ exn_type e = "AttributeError") /\
  (exists e, Csv.row post = Raise e /\ exn_type e = "AttributeError") /\
  (exists e, Csv.write_csv posts = Raise e).
Proof.
  intros Hcls Hin.
  assert (Hrow : exists e, Csv.row post = Raise e /\ exn_type e = "AttributeError").
  { unfold Csv.row, Csv.row_dict. fold (classification_of post).
    destruct (vget_or_not_dict (classification_of post) "tariffs_related"
                (VStr EmptyString) Hcls) as (e & -> & Htype).
    cbn [res_bind]. eauto. }
  split; [|split; [|split; [exact Hrow|]]].
  - apply (select_raise is_tariff_post post posts Hin); [|exact is_tariff_post_raise].
    unfold is_tariff_post, Py.vget.
    destruct (vget_or_not_dict (classification_of post) "tariffs_related" VNone Hcls)
      as (e & -> & _). cbn [res_bind]. eauto.
  - apply (select_raise has_tariff_rate post posts Hin); [|exact has_tariff_rate_raise].
    unfold has_tariff_rate, Py.vget.
    destruct (vget_or_not_dict (classification_of post) "tariff_rate" VNone Hcls)
      as (e & -> & _). cbn [res_bind]. eauto.
  - destruct Hrow as (e & Hrow & _). exact (write_csv_raise post posts e Hin Hrow).
Qed.

Lemma X9_classification_that_is_no_dict_witness :
  let post := [("content", VStr "Tariffs"); ("classification", VList [])] in
  exists e,
    tariff_posts [Sample.steel_post; post] = Raise e /\ exn_type e = "AttributeError".
Proof.
  intros post.
  assert (Hcls : ~ is_dict (classification_of post)) by (intros H; exact H).
  assert (Hin : post ∈ [Sample.steel_post; post]) by (repeat constructor).
  exact (proj1 (X9_classification_that_is_no_dict post _ Hcls Hin)).
Defined.

(** X10. A post without a [classification] key is handled as one with an
    empty classification: its row has the empty string in the eight
    classification columns, and it is in neither tier. *)
Theorem X10_post_without_classification post :
  Py.lookup "classification" post = None ->
  Csv.row post =
    Ok [Csv.field (Py.get_or post "created_at" (VStr EmptyString));
        Csv.field (Py.get_or post "content" (VStr EmptyString));
        Json.dumps (Py.get_or post "media" (VList []));
        EmptyString; EmptyString; EmptyString; EmptyString;
        EmptyString; EmptyString; EmptyString; EmptyString] /\
  is_tariff_post post = Ok false /\
  has_tariff_rate post = Ok false.
Proof.
  intros Hmissing.
  assert (Hcls : classification_of post = VDict []).
  { unfold classification_of, Py.get_or. rewrite Hmissing. reflexivity. }
  split; [|split].
  - rewrite (row_of_products post [] EmptyString Hcls); [reflexivity|].
    apply products_field_absent. reflexivity.
  - unfold is_tariff_post. rewrite Hcls. reflexivity.
  - unfold has_tariff_rate. rewrite Hcls. reflexivity.
Qed.

Lemma X10_post_without_classification_witness :
  Csv.row [("content", VStr "Good morning")] =
    Ok [EmptyString; "Good morning"; "[]"; EmptyString; EmptyString; EmptyString;
        EmptyString; EmptyString; EmptyString; EmptyString; EmptyString].
Proof.
  exact (proj1 (X10_post_without_classification [("content", VStr "Good morning")] eq_refl)).
Defined.

Lemma row_enriched post r : Csv.row post = Ok r -> enriched_post post.
Proof.
  unfold Csv.row, Csv.row_dict, enriched_post. fold (classification_of post).
  destruct (classification_of post); cbn; try discriminate. intros _. exact I.
Qed.

Lemma rows_returned posts rs :
  Csv.rows posts = Ok rs -> Forall (fun post => exists r, Csv.row post = Ok r) posts.
Proof.
  revert rs. induction posts as [|post rest IH]; intros rs Hrows; [constructor|].
  destruct (rows_inv post rest rs Hrows) as (r & rs' & Hrow & Hrest & _).
  constructor; [eauto | exact (IH rs' Hrest)].
Qed.

Lemma rows_of_returned posts :
  Forall (fun post => exists r, Csv.row post = Ok r) posts ->
  exists rs, Csv.rows posts = Ok rs.
Proof.
  induction 1 as [|post rest [r Hrow] _ [rs IH]]; [exists []; reflexivity|].
  cbn [Csv.rows]. rewrite Hrow, IH. cbn [res_bind]. eauto.
Qed.

Lemma write_csv_filter (p : dict -> bool) posts table :
  Csv.write_csv posts = Ok table ->
  exists table', Csv.write_csv (List.filter p posts) = Ok table'.
Proof.
  intros Hwrite. destruct (write_csv_inv posts table Hwrite) as (rs & Hrows & _).
  destruct (rows_of_returned (List.filter p posts)) as [rs' Hrs'].
  { apply Forall_filter. exact (rows_returned posts rs Hrows). }
  unfold Csv.write_csv. rewrite Hrs'. cbn [res_bind]. eauto.
Qed.

(** X11. Once the table of all posts can be written, nothing further can
    fail: [main] writes six files, in this order and under these names, the
    two files of each tier from the same sequence of posts. *)
Theorem X11_six_files posts table :
  Csv.write_csv posts = Ok table ->
  exists relevant_table rate_table,
    Csv.write_csv (List.filter relevant posts) = Ok relevant_table /\
    Csv.write_csv (List.filter rate_present posts) = Ok rate_table /\
    outputs posts =
      Ok [("posts.json", JsonFile (VList (map VDict posts)));
          ("posts.csv", CsvFile table);
          ("tariff_posts.json", JsonFile (VList (map VDict (List.filter relevant posts))));
          ("tariff_posts.csv", CsvFile relevant_table);
          ("official_tariff_posts.json",
           JsonFile (VList (map VDict (List.filter rate_present posts))));
          ("official_tariff_posts.csv", CsvFile rate_table)].
Proof.
  intros Hwrite.
  destruct (write_csv_filter relevant posts table Hwrite) as [relevant_table Hrelevant].
  destruct (write_csv_filter rate_present posts table Hwrite) as [rate_table Hrate].
  exists relevant_table, rate_table. split; [exact Hrelevant|]. split; [exact Hrate|].
  assert (Hposts : Forall enriched_post posts).
  { destruct (write_csv_inv posts table Hwrite) as (rs & Hrows & _).
    eapply Forall_impl; [exact (rows_returned posts rs Hrows)|].
    intros post [r Hrow]. exact (row_enriched post r Hrow). }
  unfold outputs, save.
  rewrite Hwrite, (tariff_posts_filter posts Hposts). cbn [res_bind].
  rewrite Hrelevant, (official_tariff_posts_filter posts Hposts). cbn [res_bind].
  rewrite Hrate. reflexivity.
Qed.

Lemma X11_six_files_witness :
  exists files,
    outputs Sample.enriched = Ok files /\
    map fst files =
      ["posts.json"; "posts.csv"; "tariff_posts.json"; "tariff_posts.csv";
       "official_tariff_posts.json"; "official_tariff_posts.csv"].
Proof.
  destruct (X11_six_files Sample.enriched _ eq_refl)
    as (relevant_table & rate_table & _ & _ & Houtputs).
  eexists. split; [exact Houtputs | reflexivity].
Defined.

(** ** The worker and the pool *)

(** X12. The enriched post has the four keys [created_at], [content],
    [media] and [classification], in this order, and nothing else of the
    raw post; a time or a text that the raw post lacks is [None]. *)
Theorem X12_keys_of_the_enriched_post w post :
  raw_post post ->
  (forall structured, structure post = Ok structured ->
                      prompt_representable w structured []) ->
  exists enriched,
    enrichment w post = Ok enriched /\
    Py.keys enriched = ["created_at"; "content"; "media"; "classification"] /\
    Py.get enriched "created_at" = Py.get post "created_at" /\
    Py.get enriched "content" = Py.get post "content".
Proof.
  intros Hraw Hlen. pose proof Hraw as (attachments & Hget & Hdicts).
  destruct (process_post_returns w post Hraw Hlen)
    as (structured & classification & t & Hstructure & _ & _ & Hprocess).
  rewrite (structure_raw_post post attachments Hget Hdicts) in Hstructure.
  injection Hstructure as <-.
  eexists. split; [unfold enrichment; rewrite Hprocess; reflexivity|].
  repeat split.
Qed.

Lemma X12_keys_of_the_enriched_post_witness :
  exists enriched,
    enrichment Sample.not_found Sample.raw_post_with_image = Ok enriched /\
    Py.keys enriched = ["created_at"; "content"; "media"; "classification"].
Proof.
  assert (Hraw : raw_post Sample.raw_post_with_image).
  { eexists. split; [reflexivity|]. repeat constructor. }
  assert (Hlen : forall structured,
             structure Sample.raw_post_with_image = Ok structured ->
             prompt_representable Sample.not_found structured []).
  { intros structured Hstructure text t' Hbuild.
    vm_compute in Hstructure. injection Hstructure as <-.
    vm_compute in Hbuild. injection Hbuild as <- _. vm_compute. reflexivity. }
  destruct (X12_keys_of_the_enriched_post Sample.not_found Sample.raw_post_with_image
              Hraw Hlen) as (enriched & Henriched & Hkeys & _).
  exists enriched. split; [exact Henriched | exact Hkeys].
Defined.

Lemma results_of_raise (rs : list (res dict)) :
  Exists (fun r => exists e, r = Raise e) rs ->
  exists e, results (map Some rs) = Some (Raise e).
Proof.
  induction rs as [|r rs IH]; intros Hexists.
  - apply Exists_nil in Hexists. contradiction.
  - cbn [map results]. destruct r as [structured|e]; [|eauto].
    apply Exists_cons in Hexists as [[e He]|Htail]; [discriminate|].
    destruct (IH Htail) as [e ->]. eauto.
Qed.

Lemma run_pool_all_finished_map worlds posts completion :
  (forall i, i < length posts -> i ∈ completion) ->
  run_pool worlds posts completion =
    map Some (imap (fun i post => enrichment (worlds i) post) posts).
Proof.
  intros Hall. rewrite (run_pool_all_finished worlds posts completion Hall).
  apply list_eq. intros i.
  change (map Some) with (fmap (M := list) (@Some (res dict))).
  rewrite list_lookup_fmap, !list_lookup_imap.
  destruct (posts !! i); reflexivity.
Qed.

(** X13. One task that raises is enough to lose the batch: when every task
    has finished and some task has raised, collecting the results raises,
    and no list of enriched posts is handed back. *)
Theorem X13_a_raising_task_aborts_the_batch worlds posts completion i post e :
  (forall j, j < length posts -> j ∈ completion) ->
  posts !! i = Some post ->
  enrichment (worlds i) post = Raise e ->
  exists e', structured_posts worlds posts completion = Some (Raise e').
Proof.
  intros Hall Hpost Hraise. unfold structured_posts.
  rewrite (run_pool_all_finished_map worlds posts completion Hall).
  apply results_of_raise. apply Exists_exists.
  exists (Raise e). split; [|eauto].
  apply list_elem_of_lookup. exists i.
  rewrite list_lookup_imap, Hpost. cbn. rewrite Hraise. reflexivity.
Qed.

(** X14. The default [[]] of [post.get("media_attachments", [])] serves a
    missing key only.  A raw post that has the key with [None] (or another
    value that cannot be iterated) makes the worker raise a [TypeError]
    before anything is downloaded or classified. *)
Theorem X14_attachments_that_cannot_be_iterated w post v t :
  Py.lookup "media_attachments" post = Some v ->
  not_iterable v ->
  exists e,
    process_post w post t = (Raise e, t) /\ exn_type e = "TypeError".
Proof.
  intros Hlookup Hv. unfold process_post, bind, lift, structure, Py.get_or.
  rewrite Hlookup. destruct v; try contradiction; cbn; eauto.
Qed.

Lemma X13_a_raising_task_aborts_the_batch_witness :
  let post := [("content", VStr "Good morning"); ("media_attachments", VNone)] in
  exists e,
    structured_posts (fun _ => Sample.online) [Sample.raw_post_with_image; post] [0; 1] =
      Some (Raise e).
Proof.
  intros post.
  apply (X13_a_raising_task_aborts_the_batch (fun _ => Sample.online) _ [0; 1] 1 post
           (Exn "TypeError" "'NoneType' object is not iterable")).
  - intros j Hj. destruct j as [|[|j]]; [| |cbn in Hj; lia]; repeat constructor.
  - reflexivity.
  - reflexivity.
Defined.

Lemma X14_attachments_that_cannot_be_iterated_witness :
  let post := [("content", VStr "Good morning"); ("media_attachments", VNone)] in
  exists e, process_post Sample.online post [] = (Raise e, []) /\ exn_type e = "TypeError".
Proof.
  intros post.
  exact (X14_attachments_that_cannot_be_iterated Sample.online post VNone [] eq_refl I).
Defined.

Lemma results_returned (futures : list future) :
  forall outs,
    results futures = Some (Ok outs) ->
    forall i, i < length futures -> exists out, futures !! i = Some (Some (Ok out)).
Proof.
  induction futures as [|f futures IH]; intros outs Hresults i Hi; [cbn in Hi; lia|].
  cbn [results] in Hresults. destruct f as [[structured|e]|]; try discriminate.
  destruct (results futures) as [[others|e]|] eqn:Hrest; try discriminate.
  destruct i as [|i]; [cbn; eauto|].
  cbn. apply (IH others eq_refl). cbn in Hi. lia.
Qed.

(** X15. No partial result: as long as one task has not finished, the
    collection of the results does not hand back a list of enriched
    posts. *)
Theorem X15_no_result_before_every_task_is_done worlds posts completion i :
  i < length posts ->
  i ∉ completion ->
  forall enriched, structured_posts worlds posts completion <> Some (Ok enriched).
Proof.
  intros Hi Hnotin enriched Hresults. unfold structured_posts in Hresults.
  destruct (results_returned _ enriched Hresults i) as [out Hout].
  { unfold run_pool. rewrite length_foldl_complete. unfold submit_all.
    rewrite length_map. exact Hi. }
  unfold run_pool in Hout.
  rewrite (lookup_foldl_complete_other worlds posts completion i Hnotin) in Hout.
  unfold submit_all in Hout.
  change (map (fun _ : dict => None)) with (fmap (M := list) (fun _ : dict => @None (res dict)))
    in Hout.
  rewrite list_lookup_fmap in Hout.
  destruct (posts !! i); cbn in Hout; discriminate.
Qed.

Lemma X15_no_result_before_every_task_is_done_witness :
  structured_posts (fun _ => Sample.online) Sample.raw_posts [1] = None.
Proof.
  assert (Hnotin : 0 ∉ [1]).
  { intros Hin. apply elem_of_cons in Hin as [Heq|Hin]; [discriminate|].
    apply elem_of_nil in Hin. exact Hin. }
  pose proof (X15_no_result_before_every_task_is_done (fun _ => Sample.online)
                Sample.raw_posts [1] 0 ltac:(cbn; lia) Hnotin) as Hnever.
  destruct (structured_posts (fun _ => Sample.online) Sample.raw_posts [1])
    as [[enriched|e]|] eqn:Hposts.
  - exfalso. exact (Hnever enriched eq_refl).
  - vm_compute in Hposts. discriminate.
  - reflexivity.
Defined.

(** * Properties of [prompt_chatgpt.py] *)

(** ** The choice of the files *)

Lemma filter_files_included excluded files :
  fst (Combine.filter_files excluded files) =
    List.filter (fun file => negb (Combine.excluded_by excluded file)) files.
Proof.
  induction files as [|file rest IH]; [reflexivity|].
  cbn [Combine.filter_files List.filter].
  destruct (Combine.filter_files excluded rest) as [included printed]. cbn [fst] in IH.
  destruct (Combine.excluded_by excluded file); cbn [negb fst]; rewrite IH; reflexivity.
Qed.

Lemma filter_files_printed excluded files :
  snd (Combine.filter_files excluded files) =
    map excluding_line (List.filter (Combine.excluded_by excluded) files).
Proof.
  induction files as [|file rest IH]; [reflexivity|].
  cbn [Combine.filter_files List.filter].
  destruct (Combine.filter_files excluded rest) as [included printed]. cbn [snd] in IH.
  destruct (Combine.excluded_by excluded file); cbn [snd map]; rewrite IH; reflexivity.
Qed.

Lemma excluded_by_false excluded file :
  Combine.excluded_by excluded file = false <-> kept excluded file.
Proof.
  unfold Combine.excluded_by, kept. induction excluded as [|excl rest IH]; cbn [existsb].
  - split; [|reflexivity]. intros _ excl Hin. apply elem_of_nil in Hin. contradiction.
  - rewrite orb_false_iff, IH. split.
    + intros [Hhead Hrest] excl' Hin.
      apply elem_of_cons in Hin as [->|Hin]; [exact Hhead | exact (Hrest excl' Hin)].
    + intros Hall. split; [apply Hall; constructor|].
      intros excl' Hin. apply Hall. constructor. exact Hin.
Qed.

Lemma elem_of_filter {A} (p : A -> bool) (l : list A) x :
  x ∈ List.filter p l <-> x ∈ l /\ p x = true.
Proof.
  rewrite !list_elem_of_In. apply filter_In.
Qed.

(** X16. [get_python_files] keeps the listed files in their order and keeps
    exactly those whose name contains, letter case aside, neither an entry
    of the exclusion list nor [prompt_chatgpt.py], which is excluded
    whatever the list says. *)
Theorem X16_files_that_are_kept files excluded :
  let included := fst (Combine.get_python_files files excluded) in
  sublist included files /\
  (forall file,
      file ∈ included <->
      file ∈ files /\ kept excluded file /\ kept ["prompt_chatgpt.py"] file).
Proof.
  intros included. unfold included, Combine.get_python_files.
  rewrite filter_files_included. split; [apply filter_sublist|].
  intros file. rewrite elem_of_filter, negb_true_iff, excluded_by_false.
  unfold kept. split.
  - intros [Hin Hkept]. split; [exact Hin|].
    split; intros excl Hexcl; apply Hkept; apply elem_of_app; [left | right]; exact Hexcl.
  - intros (Hin & Hlist & Hself). split; [exact Hin|].
    intros excl Hexcl. apply elem_of_app in Hexcl as [Hexcl|Hexcl]; [apply Hlist | apply Hself];
      exact Hexcl.
Qed.

Lemma X16_files_that_are_kept_witness :
  fst (Combine.get_python_files Tree.files ["TEST"]) = [["main.py"]; ["broken.py"]] /\
  ["tools"; "Prompt_ChatGPT.py"] ∉ fst (Combine.get_python_files Tree.files ["TEST"]).
Proof.
  destruct (X16_files_that_are_kept Tree.files ["TEST"]) as [_ Hkept].
  split; [reflexivity|].
  intros Hin. apply Hkept in Hin as (_ & _ & Hself).
  specialize (Hself "prompt_chatgpt.py" ltac:(constructor)).
  vm_compute in Hself. discriminate.
Defined.

Lemma length_filter_partition {A} (p : A -> bool) (l : list A) :
  length (List.filter (fun x => negb (p x)) l) + length (List.filter p l) = length l.
Proof.
  induction l as [|x l IH]; [reflexivity|].
  cbn [List.filter]. destruct (p x); cbn [negb length]; lia.
Qed.

(** X17. Every listed file is either kept or reported: the lines printed
    are the lines [Excluding file: <path>] of the files left out, in the
    order of the listing, and the two counts add up to the number of files
    listed. *)
Theorem X17_every_file_is_kept_or_reported files excluded :
  let result := Combine.get_python_files files excluded in
  let excluded_substrings := (excluded ++ ["prompt_chatgpt.py"])%list in
  snd result =
    map excluding_line
        (List.filter (Combine.excluded_by excluded_substrings) files) /\
  length (fst result) + length (snd result) = length files.
Proof.
  intros result excluded_substrings. unfold result, Combine.get_python_files.
  fold excluded_substrings.
  rewrite filter_files_included, filter_files_printed. split; [reflexivity|].
  rewrite length_map. apply length_filter_partition.
Qed.

Lemma existsb_map_lower (excluded : list string) (file_name : string) :
  existsb (fun excl => Str.contains (Str.lower excl) file_name) excluded =
  existsb (fun lowered => Str.contains lowered file_name) (map Str.lower excluded).
Proof.
  induction excluded as [|excl rest IH]; [reflexivity|].
  cbn [existsb map]. rewrite IH. reflexivity.
Qed.

Lemma filter_files_ext excluded1 excluded2 files :
  (forall file, Combine.excluded_by excluded1 file = Combine.excluded_by excluded2 file) ->
  Combine.filter_files excluded1 files = Combine.filter_files excluded2 files.
Proof.
  intros Hsame. induction files as [|file rest IH]; [reflexivity|].
  cbn [Combine.filter_files]. rewrite IH, Hsame. reflexivity.
Qed.

(** X18. The exclusion list is read without regard to letter case: two
    lists that agree once lowered keep the same files and print the same
    lines. *)
Theorem X18_exclusion_ignores_case files excluded1 excluded2 :
  map Str.lower excluded1 = map Str.lower excluded2 ->
  Combine.get_python_files files excluded1 = Combine.get_python_files files excluded2.
Proof.
  intros Hlower. unfold Combine.get_python_files. apply filter_files_ext.
  intros file. unfold Combine.excluded_by.
  rewrite !existsb_map_lower, !map_app, Hlower. reflexivity.
Qed.

Lemma X18_exclusion_ignores_case_witness :
  Combine.get_python_files Tree.files ["Util_TEST"] =
  Combine.get_python_files Tree.files ["util_test"].
Proof.
  exact (X18_exclusion_ignores_case Tree.files ["Util_TEST"] ["util_test"] eq_refl).
Defined.

Lemma contains_empty s : Str.contains EmptyString s = true.
Proof. destruct s; reflexivity. Qed.

Lemma excluded_by_empty excluded file :
  EmptyString ∈ excluded -> Combine.excluded_by excluded file = true.
Proof.
  intros Hin. unfold Combine.excluded_by. apply existsb_exists.
  exists EmptyString. split; [apply list_elem_of_In; exact Hin|].
  apply contains_empty.
Qed.

Lemma filter_all_true {A} (p : A -> bool) (l : list A) :
  (forall x, p x = true) ->
  List.filter p l = l /\ List.filter (fun x => negb (p x)) l = [].
Proof.
  intros Hall. induction l as [|x l [IH1 IH2]]; [split; reflexivity|].
  cbn [List.filter]. rewrite Hall. cbn [negb]. rewrite IH1, IH2. split; reflexivity.
Qed.

(** X19. An empty string in the exclusion list excludes every file, since
    the empty string is part of every name: all the listed files are
    reported as left out and no output file is written. *)
Theorem X19_empty_string_excludes_everything dir excluded output_file :
  EmptyString ∈ excluded ->
  Combine.main dir excluded output_file =
    {| Combine.written := None;
       Combine.printed :=
         (map excluding_line (Combine.listing dir) ++ ["No Python files to include."])%list;
       Combine.raised := None |}.
Proof.
  intros Hin. unfold Combine.main.
  pose proof (filter_files_included (excluded ++ ["prompt_chatgpt.py"])%list
                (Combine.listing dir)) as Hincluded.
  pose proof (filter_files_printed (excluded ++ ["prompt_chatgpt.py"])%list
                (Combine.listing dir)) as Hprinted.
  destruct (filter_all_true
              (Combine.excluded_by (excluded ++ ["prompt_chatgpt.py"])%list)
              (Combine.listing dir)) as [Hall Hnone].
  { intros file. apply excluded_by_empty. apply elem_of_app. left. exact Hin. }
  rewrite Hnone in Hincluded. rewrite Hall in Hprinted.
  unfold Combine.get_python_files.
  destruct (Combine.filter_files _ (Combine.listing dir)) as [included printed].
  cbn [fst snd] in Hincluded, Hprinted. subst included printed. reflexivity.
Qed.

Lemma X19_empty_string_excludes_everything_witness :
  Combine.written (Combine.main Tree.plain [EmptyString] "/work/combined.txt") = None.
Proof.
  rewrite (X19_empty_string_excludes_everything Tree.plain [EmptyString]
             "/work/combined.txt" ltac:(constructor)).
  reflexivity.
Defined.

(** ** The combined text *)

Lemma append_nil_r (s : string) : s ++ EmptyString = s.
Proof.
  induction s as [|c s IH]; [reflexivity|].
  change (String c (s ++ EmptyString) = String c s). rewrite IH. reflexivity.
Qed.

Lemma write_files_closed read files :
  forall out printed,
    Combine.write_files read files out printed =
      (out ++ concat_strings (map (contribution read) files),
       (printed ++ error_lines read files)%list).
Proof.
  induction files as [|file rest IH]; intros out printed.
  - cbn. rewrite append_nil_r, app_nil_r. reflexivity.
  - cbn [Combine.write_files map concat_strings error_lines]. unfold contribution at 1.
    destruct (read file) as [contents|e]; rewrite IH.
    + unfold block. rewrite !append_assoc. reflexivity.
    + unfold header. rewrite !append_assoc, <- app_assoc. reflexivity.
Qed.

Lemma written_combine_files dir included_files output_file :
  included_files <> [] ->
  Combine.written (Combine.combine_files dir included_files output_file) =
    Some (concat_strings (map (contribution (Combine.read dir)) included_files)
            ++ Combine.instruction ++ prompt_section (Combine.prompt dir)).
Proof.
  intros Hfiles. unfold Combine.combine_files.
  destruct included_files as [|file rest]; [contradiction|].
  rewrite write_files_closed. cbn [append].
  destruct (Combine.prompt dir) as [[contents|e]|]; cbn [Combine.written prompt_section];
    unfold prompt_heading; rewrite ?append_assoc, ?append_nil_r; reflexivity.
Qed.

(** X20. The combined text is, for each included file in turn, a comment
    line with its path followed by its contents and an empty line, or the
    comment line alone when the file cannot be read; then the instruction
    line; then, when there is a [prompt.txt], a heading and its contents. *)
Theorem X20_combined_text dir included_files output_file :
  included_files <> [] ->
  Combine.written (Combine.combine_files dir included_files output_file) =
    Some (concat_strings (map (contribution (Combine.read dir)) included_files)
            ++ Combine.instruction ++ prompt_section (Combine.prompt dir)).
Proof. exact (written_combine_files dir included_files output_file). Qed.

Lemma X20_combined_text_witness :
  Combine.written
    (Combine.combine_files Tree.with_prompt [["main.py"]; ["broken.py"]] "/work/all.txt") =
    Some ("# main.py" ++ Str.nl ++ "import os" ++ Str.nl ++ Str.nl
            ++ "# broken.py" ++ Str.nl
            ++ Combine.instruction
            ++ Str.nl ++ Str.nl ++ "# Additional Prompt" ++ Str.nl
            ++ "Add type hints." ++ Str.nl ++ Str.nl).
Proof.
  rewrite (X20_combined_text Tree.with_prompt [["main.py"]; ["broken.py"]] "/work/all.txt")
    by discriminate.
  reflexivity.
Defined.





(** X23. A [prompt.txt] that is there but cannot be read ends the script
    with the exception of the read: the output file is left with the files,
    the instruction line and the heading of the prompt, and the closing
    line is not printed. *)
Theorem X23_unreadable_prompt dir included_files output_file e :
  included_files <> [] ->
  Combine.prompt dir = Some (Raise e) ->
  Combine.combine_files dir included_files output_file =
    {| Combine.written :=
         Some (concat_strings (map (contribution (Combine.read dir)) included_files)
                 ++ Combine.instruction ++ prompt_heading);
       Combine.printed := error_lines (Combine.read dir) included_files;
       Combine.raised := Some e |}.
Proof.
  intros Hfiles Hprompt. unfold Combine.combine_files.
  destruct included_files as [|file rest]; [contradiction|].
  rewrite write_files_closed, Hprompt. cbn [append app].
  unfold prompt_heading. rewrite !append_assoc. reflexivity.
Qed.

Lemma X23_unreadable_prompt_witness :
  let result := Combine.combine_files Tree.locked_prompt [["main.py"]] "/work/all.txt" in
  Combine.raised result = Some (Exn "PermissionError" "Permission denied") /\
  Combine.printed result = [].
Proof.
  intros result. unfold result.
  rewrite (X23_unreadable_prompt Tree.locked_prompt [["main.py"]] "/work/all.txt"
             (Exn "PermissionError" "Permission denied") ltac:(discriminate) eq_refl).
  split; reflexivity.
Defined.
